(** * llsed: the request/response transformation pipeline

    A shallow embedding of [src/llsed.go]: the JSON-RPC transform call
    ([callRPC]) and the proxy handler ([handleProxy]), together with the
    parts of Go's [net/http] that the handler drives (header maps, the
    response writer, [http.Error]).

    What lies outside the repository is kept outside the model:
    - [encoding/json], [fmt] and the validity checks of [http.NewRequest]
      are the operations of a class [GoLib]; the theorems about the
      pipeline hold for every instance of it;
    - the network is an [http.Client] whose two entry points thread a
      state of the outside world, so that servers may be stateful;
    - every outbound call is recorded, with its answer, in a trace.
    Output written with [log.Printf] is not modelled. *)

From Stdlib Require Import ZArith String Ascii List Lia DecimalString.
From Stdlib Require Import Floats.SpecFloat.
From stdpp Require Import gmap strings list fin_maps.

Set Warnings "-register-all".
Local Open Scope Z_scope.

(** ** Go values *)

(** A Go [error], identified with the text of its [Error()] method. *)
Definition error := string.

(** A Go [[]byte]. *)
Definition bytes := string.

(** The pair [(A, error)] that fallible Go functions return. *)
Inductive result (A : Type) : Type :=
| Ok (a : A)
| Err (err : error).
Arguments Ok {A} a.
Arguments Err {A} err.

(** The dynamic values an [interface{}] holds in this program: what
    [encoding/json] decodes into an [interface{}], and a
    [map[string]interface{}] variable (which may be the nil map) stored
    into one. *)
Inductive value : Type :=
| VNil
| VBool (b : bool)
| VFloat64 (f : spec_float)
| VString (s : string)
| VSlice (l : list value)
| VMap (m : option (gmap string value)).

(** A variable of type [map[string]interface{}]; [None] is the nil map. *)
Abbreviation gomap := (option (gmap string value)).

(** [v != nil] for an [interface{}]. *)
Definition is_nil (v : value) : bool :=
  match v with VNil => true | _ => false end.

(** The name [%T] gives to the dynamic type, as the run-time prints it in
    the message of a failed type assertion. *)
Definition typeName (v : value) : string :=
  match v with
  | VNil => "nil"
  | VBool _ => "bool"
  | VFloat64 _ => "float64"
  | VString _ => "string"
  | VSlice _ => "[]interface {}"
  | VMap _ => "map[string]interface {}"
  end.

(** ** The structs of llsed.go *)

Module TransformRule.
Record t : Type := mk {
    Tag : string;
    From : string;
    To : string;
    Params : gomap;
    Pre : string;
    Post : string
  }.
End TransformRule.
Abbreviation TransformRule := TransformRule.t.

Module Config.
Record t : Type := mk { Rules : list TransformRule }.
End Config.
Abbreviation Config := Config.t.

Module JSONRPCRequest.
Record t : Type := mk {
    JSONRPC : string;
    Method : string;
    Params : value;
    ID : Z
  }.
End JSONRPCRequest.
Abbreviation JSONRPCRequest := JSONRPCRequest.t.

Module JSONRPCResponse.
Record t : Type := mk {
    JSONRPC : string;
    Result : value;
    Error : value;
    ID : Z
  }.
End JSONRPCResponse.
Abbreviation JSONRPCResponse := JSONRPCResponse.t.

(** ** net/http: header maps *)

(** [http.Header] is [map[string][]string]. *)
Abbreviation Header := (gmap string (list string)).

Definition is_lower (c : ascii) : bool :=
  ((97 <=? N_of_ascii c) && (N_of_ascii c <=? 122))%N.

Definition is_upper (c : ascii) : bool :=
  ((65 <=? N_of_ascii c) && (N_of_ascii c <=? 90))%N.

Definition is_digit (c : ascii) : bool :=
  ((48 <=? N_of_ascii c) && (N_of_ascii c <=? 57))%N.

(** The bytes of an HTTP token: letters, digits and [!#$%&'*+-.^_`|~]. *)
Definition validHeaderFieldByte (c : ascii) : bool :=
  is_lower c || is_upper c || is_digit c
  || existsb (N.eqb (N_of_ascii c))
       [33; 35; 36; 37; 38; 39; 42; 43; 45; 46; 94; 95; 96; 124; 126]%N.

Definition toUpper (c : ascii) : ascii :=
  if is_lower c then ascii_of_N (N_of_ascii c - 32) else c.

Definition toLower (c : ascii) : ascii :=
  if is_upper c then ascii_of_N (N_of_ascii c + 32) else c.

(** The second loop of [textproto.canonicalMIMEHeaderKey]: a letter is put
    in upper case at the start and after a dash, in lower case elsewhere. *)
Fixpoint canonicalCase (upper : bool) (s : string) : string :=
  match s with
  | EmptyString => EmptyString
  | String c s' =>
      let c' := if upper then toUpper c else toLower c in
      String c' (canonicalCase (Ascii.eqb c' "-") s')
  end.

(** [textproto.CanonicalMIMEHeaderKey]: a key with a byte that is not a
    token byte is returned as it is. *)
Definition CanonicalMIMEHeaderKey (s : string) : string :=
  if forallb validHeaderFieldByte (list_ascii_of_string s)
  then canonicalCase true s
  else s.

Module Header.
(** [h.Add(key, value)] *)
Definition Add (key value : string) (h : Header) : Header :=
    let k := CanonicalMIMEHeaderKey key in
    <[k := default [] (h !! k) ++ [value]]> h.

(** [h.Set(key, value)] *)
Definition Set_ (key value : string) (h : Header) : Header :=
    <[CanonicalMIMEHeaderKey key := [value]]> h.

(** [h.Del(key)] *)
Definition Del (key : string) (h : Header) : Header :=
    delete (CanonicalMIMEHeaderKey key) h.
End Header.

(** The loop
    [for key, values := range src { for _, value := range values { dst.Add(key, value) } }]
    that the handler runs twice. *)
Definition copyHeaders (src dst : Header) : Header :=
  map_fold (fun key values dst =>
              foldl (fun dst value => Header.Add key value dst) dst values)
           dst src.

(** ** net/http: requests and responses *)

(** A body stream, described by what reading it to the end gives. *)
Inductive Body : Type :=
| BodyOf (data : bytes)
| BodyBroken (data : bytes) (err : error).

Definition io_ReadAll (b : Body) : result bytes :=
  match b with
  | BodyOf data => Ok data
  | BodyBroken _ err => Err err
  end.

(** The fields of [net/url.URL] that an inbound request carries. *)
Module URL.
Record t : Type := mk { Path : string; RawQuery : string }.
End URL.
Abbreviation URL := URL.t.

(** The inbound [*http.Request] as the server hands it to the handler. *)
Module Request.
Record t : Type := mk {
    Method : string;
    URL : URL.t;
    Header : gmap string (list string);
    Body : Body
  }.
End Request.
Abbreviation Request := Request.t.

(** An outbound [*http.Request] made by [http.NewRequest]: [URL] is the
    string it was made from. *)
Module ClientRequest.
Record t : Type := mk {
    Method : string;
    URL : string;
    Header : gmap string (list string);
    Body : bytes
  }.
End ClientRequest.
Abbreviation ClientRequest := ClientRequest.t.

Module Response.
Record t : Type := mk {
    StatusCode : Z;
    Header : gmap string (list string);
    Body : Body
  }.
End Response.
Abbreviation Response := Response.t.

Definition StatusOK : Z := 200.
Definition StatusBadRequest : Z := 400.
Definition StatusInternalServerError : Z := 500.
Definition StatusBadGateway : Z := 502.

(** ** The libraries the program calls *)

(** The calls the program makes into [encoding/json] and [fmt], each at
    the type it is used at, and the checks of [http.NewRequest] on the
    method and the URL. *)
Class GoLib : Type := {
  (** [json.Valid(data)] *)
  json_Valid : bytes -> bool;
  (** [json.Unmarshal(data, &m)] for a nil [m map[string]interface{}] *)
  json_Unmarshal : bytes -> result gomap;
  (** [json.Marshal(m)] for [m map[string]interface{}] *)
  json_Marshal : gomap -> result bytes;
  (** [json.Marshal(rpcReq)] *)
  json_MarshalRequest : JSONRPCRequest -> result bytes;
  (** [json.NewDecoder(body).Decode(&rpcResp)] *)
  json_Decode : Body -> result JSONRPCResponse;
  (** [fmt.Sprintf("%v", v)] *)
  fmt_v : value -> string;
  (** the error of [http.NewRequest(method, url, _)], if any *)
  http_NewRequest_err : string -> string -> option error;
  (** [json.Unmarshal] starts by checking the syntax of the whole input *)
  json_Unmarshal_invalid :
    forall data, json_Valid data = false -> exists err, json_Unmarshal data = Err err
}.

Section NewRequest.
Context {lib : GoLib}.

(** [http.NewRequest(method, url, bytes.NewReader(body))] *)
Definition http_NewRequest (method url : string) (body : bytes) : result ClientRequest :=
    match http_NewRequest_err method url with
    | Some err => Err err
    | None =>
        Ok {| ClientRequest.Method := if String.eqb method "" then "GET" else method;
              ClientRequest.URL := url;
              ClientRequest.Header := ∅;
              ClientRequest.Body := body |}
    end.
End NewRequest.

(** ** The outside world *)

(** [*http.Client]: its two entry points take the state of the outside
    world and give the answer together with the state afterwards. *)
Module Client.
Record t (S : Type) : Type := mk {
  Post : string -> string -> bytes -> S -> result Response * S;
  Do : ClientRequest -> S -> result Response * S
}.
Arguments mk {S} _ _.
Arguments Post {S} _ _ _ _ _.
Arguments Do {S} _ _ _.
End Client.
Abbreviation Client := Client.t.

(** An outbound call and its answer. *)
Inductive Event : Type :=
| EvPost (url contentType : string) (body : bytes) (res : result Response)
| EvDo (req : ClientRequest) (res : result Response).

Definition is_forward (e : Event) : bool :=
  match e with EvDo _ _ => true | EvPost _ _ _ _ => false end.

(** ** net/http: the response writer *)

(** The [http.ResponseWriter] as the handler drives it: the header map,
    the status once [WriteHeader] has fixed it, and the bytes handed to
    [Write]. *)
Module ResponseWriter.
Record t : Type := mk {
  Header : gmap string (list string);
  status : option Z;
  body : bytes
}.
End ResponseWriter.
Abbreviation ResponseWriter := ResponseWriter.t.

Definition newResponseWriter : ResponseWriter :=
  {| ResponseWriter.Header := ∅;
     ResponseWriter.status := None;
     ResponseWriter.body := "" |}.

(** ** Running a handler *)

Module State.
Record t (S : Type) : Type := mk {
  world : S;
  trace : list Event;
  w : ResponseWriter
}.
Arguments mk {S} _ _ _.
Arguments world {S} _.
Arguments trace {S} _.
Arguments w {S} _.
End State.
Abbreviation State := State.t.

(** How a step of the handler ends: it goes on with a value, the handler
    executes [return], or the goroutine panics. *)
Inductive Flow (A : Type) : Type :=
| Next (a : A)
| Return
| Panic (msg : string).
Arguments Next {A} a.
Arguments Return {A}.
Arguments Panic {A} msg.

Definition Go (S A : Type) : Type := State S -> Flow A * State S.

Definition ret {S A} (a : A) : Go S A := fun st => (Next a, st).

Definition bind {S A B} (m : Go S A) (k : A -> Go S B) : Go S B :=
  fun st =>
    match m st with
    | (Next a, st') => k a st'
    | (Return, st') => (Return, st')
    | (Panic msg, st') => (Panic msg, st')
    end.

Definition return_ {S A} : Go S A := fun st => (Return, st).

Definition panic {S A} (msg : string) : Go S A := fun st => (Panic msg, st).

Declare Scope go_scope.
Delimit Scope go_scope with go.
Notation "x <- m ;; k" := (bind m (fun x => k))
  (at level 100, m at next level, right associativity) : go_scope.
Notation "m ;; k" := (bind m (fun _ => k))
  (at level 100, right associativity) : go_scope.

Definition newline : string := String (ascii_of_N 10) EmptyString.

Section Writer.
Context {S : Type}.

Definition updHeader (f : Header -> Header) : Go S unit :=
  fun st =>
    let w := State.w st in
    (Next tt,
     State.mk (State.world st) (State.trace st)
       {| ResponseWriter.Header := f (ResponseWriter.Header w);
          ResponseWriter.status := ResponseWriter.status w;
          ResponseWriter.body := ResponseWriter.body w |}).

(** [w.WriteHeader(code)]: a code outside 100..999 panics; the first call
    fixes the status, a later one changes nothing. *)
Definition WriteHeader (code : Z) : Go S unit :=
  fun st =>
    let w := State.w st in
    match ResponseWriter.status w with
    | Some _ => (Next tt, st)
    | None =>
        if (code <? 100) || (999 <? code)
        then (Panic "invalid WriteHeader code", st)
        else
          (Next tt,
           State.mk (State.world st) (State.trace st)
             {| ResponseWriter.Header := ResponseWriter.Header w;
                ResponseWriter.status := Some code;
                ResponseWriter.body := ResponseWriter.body w |})
    end.

(** [w.Write(data)], with the [WriteHeader(http.StatusOK)] it starts with
    when no status has been written. *)
Definition Write (data : bytes) : Go S unit :=
  (WriteHeader StatusOK ;;
   fun st =>
     let w := State.w st in
     (Next tt,
      State.mk (State.world st) (State.trace st)
        {| ResponseWriter.Header := ResponseWriter.Header w;
           ResponseWriter.status := ResponseWriter.status w;
           ResponseWriter.body := ResponseWriter.body w +:+ data |}))%go.

(** [http.Error(w, msg, code)]; [fmt.Fprintln] ends the message with a
    newline. *)
Definition http_Error (msg : string) (code : Z) : Go S unit :=
  (updHeader (Header.Del "Content-Length") ;;
   updHeader (Header.Set_ "Content-Type" "text/plain; charset=utf-8") ;;
   updHeader (Header.Set_ "X-Content-Type-Options" "nosniff") ;;
   WriteHeader code ;;
   Write (msg +:+ newline))%go.

End Writer.

(** ** llsed.go *)

Module LLMSed.
Record t (S : Type) : Type := mk {
  config : Config;
  serverURL : string;
  httpClient : Client S
}.
Arguments mk {S} _ _ _.
Arguments config {S} _.
Arguments serverURL {S} _.
Arguments httpClient {S} _.
End LLMSed.
Abbreviation LLMSed := LLMSed.t.

Section Program.
Context {lib : GoLib} {S : Type}.

(** [c.Post(url, contentType, body)], recorded in the trace. *)
Definition client_Post (c : Client S) (url contentType : string) (body : bytes)
  : Go S (result Response) :=
  fun st =>
    let '(res, world') := Client.Post c url contentType body (State.world st) in
    (Next res,
     State.mk world' (State.trace st ++ [EvPost url contentType body res]) (State.w st)).

(** [c.Do(req)], recorded in the trace. *)
Definition client_Do (c : Client S) (req : ClientRequest) : Go S (result Response) :=
  fun st =>
    let '(res, world') := Client.Do c req (State.world st) in
    (Next res,
     State.mk world' (State.trace st ++ [EvDo req res]) (State.w st)).

(** [result.(map[string]interface{})]: the assertion without the comma-ok
    form panics when the dynamic type is another one. *)
Definition assert_map (v : value) : Go S gomap :=
  match v with
  | VMap m => ret m
  | _ =>
      panic ("interface conversion: interface {} is " +:+ typeName v
             +:+ ", not map[string]interface {}")
  end.

Definition callRPC (l : LLMSed S) (endpoint : string) (payload : value)
  : Go S (result value) :=
  let rpcReq :=
    {| JSONRPCRequest.JSONRPC := "2.0";
       JSONRPCRequest.Method := "transform";
       JSONRPCRequest.Params := payload;
       JSONRPCRequest.ID := 1 |} in
  match json_MarshalRequest rpcReq with
  | Err err => ret (Err err)
  | Ok body =>
  (res <- client_Post (LLMSed.httpClient l) endpoint "application/json" body ;;
   match res with
   | Err err => ret (Err err)
   | Ok resp =>
   match json_Decode (Response.Body resp) with
   | Err err => ret (Err err)
   | Ok rpcResp =>
   if negb (is_nil (JSONRPCResponse.Error rpcResp))
   then ret (Err ("rpc error: " +:+ fmt_v (JSONRPCResponse.Error rpcResp)))
   else ret (Ok (JSONRPCResponse.Result rpcResp))
   end end)%go
  end.

Definition handleProxy (l : LLMSed S) (r : Request) : Go S unit :=
  (* Read incoming request *)
  match io_ReadAll (Request.Body r) with
  | Err _ => (http_Error "failed to read request" StatusBadRequest ;; return_)%go
  | Ok body =>
  match json_Unmarshal body with
  | Err _ => (http_Error "invalid json" StatusBadRequest ;; return_)%go
  | Ok payload =>
  (* Find matching rule (simple: just use first rule for now) *)
  if (length (Config.Rules (LLMSed.config l)) =? 0)%nat
  then (http_Error "no transformation rules configured" StatusInternalServerError ;;
        return_)%go
  else
  match Config.Rules (LLMSed.config l) !! 0%nat with
  | None => panic "runtime error: index out of range"
  | Some rule =>
  (* Pre-transform *)
  (payload <-
     (if negb (String.eqb (TransformRule.Pre rule) "")
      then
        res <- callRPC l (TransformRule.Pre rule) (VMap payload) ;;
        match res with
        | Err err =>
            http_Error ("pre-transform failed: " +:+ err) StatusInternalServerError ;;
            return_
        | Ok result => assert_map result
        end
      else ret payload) ;;
   (* Forward to target server *)
   match json_Marshal payload with
   | Err _ =>
       http_Error "failed to marshal transformed request" StatusInternalServerError ;;
       return_
   | Ok targetBody =>
   let targetURL := LLMSed.serverURL l +:+ URL.Path (Request.URL r) in
   match http_NewRequest (Request.Method r) targetURL targetBody with
   | Err _ =>
       http_Error "failed to create target request" StatusInternalServerError ;;
       return_
   | Ok targetReq =>
   (* Copy headers *)
   let targetReq :=
     {| ClientRequest.Method := ClientRequest.Method targetReq;
        ClientRequest.URL := ClientRequest.URL targetReq;
        ClientRequest.Header :=
          copyHeaders (Request.Header r) (ClientRequest.Header targetReq);
        ClientRequest.Body := ClientRequest.Body targetReq |} in
   res <- client_Do (LLMSed.httpClient l) targetReq ;;
   match res with
   | Err err =>
       http_Error ("failed to forward request: " +:+ err) StatusBadGateway ;;
       return_
   | Ok targetResp =>
   match io_ReadAll (Response.Body targetResp) with
   | Err _ => http_Error "failed to read response" StatusInternalServerError ;; return_
   | Ok responseBody =>
   match json_Unmarshal responseBody with
   | Err _ => http_Error "invalid response from target" StatusBadGateway ;; return_
   | Ok responsePayload =>
   (* Post-transform *)
   responsePayload <-
     (if negb (String.eqb (TransformRule.Post rule) "")
      then
        res <- callRPC l (TransformRule.Post rule) (VMap responsePayload) ;;
        match res with
        | Err err =>
            http_Error ("post-transform failed: " +:+ err) StatusInternalServerError ;;
            return_
        | Ok result => assert_map result
        end
      else ret responsePayload) ;;
   (* Send response back *)
   match json_Marshal responsePayload with
   | Err _ =>
       http_Error "failed to marshal final response" StatusInternalServerError ;;
       return_
   | Ok finalBody =>
   (* Copy response headers *)
   updHeader (copyHeaders (Response.Header targetResp)) ;;
   WriteHeader (Response.StatusCode targetResp) ;;
   Write finalBody
   end end end end end end)%go
  end end end.

(** ** What the client of the proxy sees *)

(** The server runs the handler on a fresh response writer. *)
Definition serve (l : LLMSed S) (r : Request) (world : S) : Flow unit * State S :=
  handleProxy l r (State.mk world [] newResponseWriter).

(** A handler that panics before anything was written has its connection
    closed by the server; otherwise the client gets the status (200 when
    none was written), the headers and the body. *)
Inductive ClientView : Type :=
| Reply (status : Z) (header : gmap string (list string)) (body : bytes)
| Aborted.

Definition client_view (out : Flow unit * State S) : ClientView :=
  let w := State.w (snd out) in
  match fst out, ResponseWriter.status w with
  | Panic _, None => Aborted
  | _, status =>
      Reply (default StatusOK status) (ResponseWriter.Header w) (ResponseWriter.body w)
  end.

Definition trace_of (out : Flow unit * State S) : list Event :=
  State.trace (snd out).

End Program.

(** The headers [http.Error] leaves on a fresh response writer, and the
    reply it makes. *)
Definition errorHeader : Header :=
  Header.Set_ "X-Content-Type-Options" "nosniff"
    (Header.Set_ "Content-Type" "text/plain; charset=utf-8"
       (Header.Del "Content-Length" ∅)).

Definition errorReply (code : Z) (msg : string) : ClientView :=
  Reply code errorHeader (msg +:+ newline).

(** The response writer after [http.Error] on a fresh one. *)
Definition errorWriter (code : Z) (msg : string) : ResponseWriter :=
  {| ResponseWriter.Header := errorHeader;
     ResponseWriter.status := Some code;
     ResponseWriter.body := msg +:+ newline |}.

(** A header map as [net/http] makes one from the wire: every key is in
    canonical form and has at least one value. *)
Definition wire_header (h : Header) : Prop :=
  forall k vs, h !! k = Some vs -> CanonicalMIMEHeaderKey k = k /\ vs <> [].


(** ** A reference instance of the libraries

    An executable [GoLib] on which the handler can be run. It follows
    [encoding/json] and [fmt] on a fragment of JSON: the literals, integer
    numerals, strings of printable ASCII that need no escape, arrays and
    objects. A document outside the fragment is answered with an error.
    The theorems about the pipeline do not depend on it; it supplies
    concrete runs. *)
Module Ref.

(** The syntax tree of a document; the members of an object are kept in
    the order of the text. *)
Inductive json : Type :=
| JNull
| JBool (b : bool)
| JNumber (neg : bool) (n : N)
| JString (s : string)
| JArray (elems : list json)
| JObject (members : list (string * json)).

(** The double quote. *)
Definition dquote : ascii := ascii_of_N 34.

Definition is_space (c : ascii) : bool :=
  existsb (N.eqb (N_of_ascii c)) [32; 9; 10; 13]%N.

Fixpoint skip_ws (s : string) : string :=
  match s with
  | String c s' => if is_space c then skip_ws s' else s
  | EmptyString => s
  end.

Fixpoint strip_prefix (p s : string) : option string :=
  match p, s with
  | EmptyString, _ => Some s
  | String a p', String b s' => if Ascii.eqb a b then strip_prefix p' s' else None
  | String _ _, EmptyString => None
  end.

(** A byte that stands for itself inside a string, both for the decoder
    and for the encoder (which escapes [<], [>] and [&]). *)
Definition plain (c : ascii) : bool :=
  let n := N_of_ascii c in
  ((32 <=? n) && (n <? 127))%N
  && negb (existsb (N.eqb n) [34; 92; 60; 62; 38]%N).

(** The characters of a string up to its closing quote. *)
Fixpoint parse_chars (s : string) : option (string * string) :=
  match s with
  | EmptyString => None
  | String c s' =>
      if Ascii.eqb c dquote then Some (EmptyString, s')
      else if plain c
           then '(str, rest) ← parse_chars s'; Some (String c str, rest)
           else None
  end.

Fixpoint parse_digits (acc : N) (s : string) : N * nat * string :=
  match s with
  | String c s' =>
      if is_digit c
      then
        let '(n, len, rest) := parse_digits (10 * acc + (N_of_ascii c - 48))%N s' in
        (n, Datatypes.S len, rest)
      else (acc, O, s)
  | EmptyString => (acc, O, s)
  end.

(** An integer numeral: no leading zero, no fraction, no exponent. *)
Definition parse_number (s : string) : option (json * string) :=
  let '(neg, s1) :=
    match s with
    | String c s' => if Ascii.eqb c "-" then (true, s') else (false, s)
    | EmptyString => (false, s)
    end in
  let '(n, len, rest) := parse_digits 0%N s1 in
  let leading_zero :=
    match s1 with String c _ => Ascii.eqb c "0" | EmptyString => false end in
  let more :=
    match rest with
    | String c _ => existsb (Ascii.eqb c) ["."; "e"; "E"]%char
    | EmptyString => false
    end in
  if (len =? 0)%nat || (leading_zero && negb (len =? 1)%nat) || more
  then None
  else Some (JNumber neg n, rest).

Definition head_is (c : ascii) (s : string) : bool :=
  match s with String c' _ => Ascii.eqb c c' | EmptyString => false end.

Definition tail (s : string) : string :=
  match s with String _ s' => s' | EmptyString => s end.

Fixpoint parse_value (fuel : nat) (s : string) : option (json * string) :=
  match fuel with
  | O => None
  | Datatypes.S fuel =>
      let s := skip_ws s in
      if head_is "n" s then rest ← strip_prefix "null" s; Some (JNull, rest)
      else if head_is "t" s then rest ← strip_prefix "true" s; Some (JBool true, rest)
      else if head_is "f" s then rest ← strip_prefix "false" s; Some (JBool false, rest)
      else if head_is dquote s then
        '(str, rest) ← parse_chars (tail s); Some (JString str, rest)
      else if head_is "[" s then
        if head_is "]" (skip_ws (tail s))
        then Some (JArray [], tail (skip_ws (tail s)))
        else '(elems, rest) ← parse_elems fuel (tail s); Some (JArray elems, rest)
      else if head_is "{" s then
        if head_is "}" (skip_ws (tail s))
        then Some (JObject [], tail (skip_ws (tail s)))
        else '(members, rest) ← parse_members fuel (tail s); Some (JObject members, rest)
      else parse_number s
  end
with parse_elems (fuel : nat) (s : string) : option (list json * string) :=
  match fuel with
  | O => None
  | Datatypes.S fuel =>
      '(v, rest) ← parse_value fuel s;
      let rest := skip_ws rest in
      if head_is "," rest then
        '(vs, rest') ← parse_elems fuel (tail rest); Some (v :: vs, rest')
      else if head_is "]" rest then Some ([v], tail rest)
      else None
  end
with parse_members (fuel : nat) (s : string) : option (list (string * json) * string) :=
  match fuel with
  | O => None
  | Datatypes.S fuel =>
      let s := skip_ws s in
      if head_is dquote s then
        '(key, rest) ← parse_chars (tail s);
        let rest := skip_ws rest in
        if head_is ":" rest then
          '(v, rest) ← parse_value fuel (tail rest);
          let rest := skip_ws rest in
          if head_is "," rest then
            '(kvs, rest') ← parse_members fuel (tail rest); Some ((key, v) :: kvs, rest')
          else if head_is "}" rest then Some ([(key, v)], tail rest)
          else None
        else None
      else None
  end.

(** The first value of a stream, and a whole document. *)
Definition parse_first (data : bytes) : option (json * string) :=
  parse_value (Datatypes.S (String.length data)) data.

Definition parse_document (data : bytes) : option json :=
  '(j, rest) ← parse_first data;
  if String.eqb (skip_ws rest) "" then Some j else None.

(** A numeral as a [float64], rounded to nearest even; a numeral beyond
    the range of [float64] is an error of the decoder. *)
Definition float_of_numeral (neg : bool) (n : N) : option spec_float :=
  match binary_normalize 53 1024 (if neg then - Z.of_N n else Z.of_N n) 0 neg with
  | S754_infinity _ | S754_nan => None
  | f => Some f
  end.

(** The value decoded into an [interface{}]; of two members with the same
    key the later one stays. *)
Fixpoint to_value (j : json) : option value :=
  match j with
  | JNull => Some VNil
  | JBool b => Some (VBool b)
  | JNumber neg n => VFloat64 <$> float_of_numeral neg n
  | JString s => Some (VString s)
  | JArray elems =>
      VSlice <$>
        (fix go (l : list json) : option (list value) :=
           match l with
           | [] => Some []
           | x :: l' => v ← to_value x; vs ← go l'; Some (v :: vs)
           end) elems
  | JObject members =>
      (fun m => VMap (Some m)) <$>
        (fix go (l : list (string * json)) (acc : gmap string value)
           : option (gmap string value) :=
           match l with
           | [] => Some acc
           | (k, x) :: l' => v ← to_value x; go l' (<[k := v]> acc)
           end) members ∅
  end.

(** The integer a [float64] holds, when it holds one. *)
Definition integer_of_float (f : spec_float) : option Z :=
  match f with
  | S754_zero _ => Some 0
  | S754_finite s m e =>
      let v :=
        if 0 <=? e then Some (Z.pos m * 2 ^ e)
        else if Z.pos m mod 2 ^ (- e) =? 0 then Some (Z.pos m / 2 ^ (- e))
        else None in
      (fun z => if s then - z else z) <$> v
  | _ => None
  end.

Definition decimal (n : Z) : string :=
  (if n <? 0 then "-" else "") +:+ NilZero.string_of_uint (N.to_uint (Z.abs_N n)).

(** A [float64] as [encoding/json] writes it: an integer below [2^53] in
    magnitude is written in full. *)
Definition encode_float (f : spec_float) : option string :=
  match f with
  | S754_zero true => Some "-0"
  | _ =>
      n ← integer_of_float f;
      if Z.abs n <? 2 ^ 53 then Some (decimal n) else None
  end.

Definition quote (s : string) : option string :=
  if forallb plain (list_ascii_of_string s)
  then Some (String dquote s +:+ String dquote EmptyString)
  else None.

Fixpoint join (sep : string) (l : list string) : string :=
  match l with
  | [] => ""
  | [x] => x
  | x :: l' => x +:+ sep +:+ join sep l'
  end.

Fixpoint insert_sorted {A} (kv : string * A) (l : list (string * A)) : list (string * A) :=
  match l with
  | [] => [kv]
  | kv' :: l' =>
      if String.leb (fst kv) (fst kv') then kv :: l else kv' :: insert_sorted kv l'
  end.

(** The entries of a Go map in the order of their keys, as
    [encoding/json] and [fmt] print them. *)
Definition sorted_entries {A} (l : list (string * A)) : list (string * A) :=
  foldr insert_sorted [] l.

Fixpoint sequence {A} (l : list (option A)) : option (list A) :=
  match l with
  | [] => Some []
  | x :: l' => a ← x; as_ ← sequence l'; Some (a :: as_)
  end.

(** [json.Marshal] of an [interface{}] *)
Fixpoint encode (v : value) : option string :=
  match v with
  | VNil => Some "null"
  | VBool b => Some (if b then "true" else "false")
  | VFloat64 f => encode_float f
  | VString s => quote s
  | VSlice l =>
      items ← sequence (map encode l);
      Some ("[" +:+ join "," items +:+ "]")
  | VMap None => Some "null"
  | VMap (Some m) =>
      items ←
        sequence
          (map (fun kv : string * option string =>
                  k ← quote (fst kv); x ← snd kv; Some (k +:+ ":" +:+ x))
               (sorted_entries (map_fold (fun k x acc => (k, encode x) :: acc) [] m)));
      Some ("{" +:+ join "," items +:+ "}")
  end.

Fixpoint strip_zeros (rev_digits : list ascii) : list ascii :=
  match rev_digits with
  | c :: l => if Ascii.eqb c "0" then strip_zeros l else rev_digits
  | [] => []
  end.

(** A [float64] under [%v]: an integer below [2^53] in magnitude, in full
    up to six digits and with an exponent from seven digits on. *)
Definition fmt_float (f : spec_float) : string :=
  match f with
  | S754_zero true => "-0"
  | _ =>
      match integer_of_float f with
      | Some n =>
          if Z.abs n <? 10 ^ 6 then decimal n
          else if Z.abs n <? 2 ^ 53 then
            let ds := NilZero.string_of_uint (N.to_uint (Z.abs_N n)) in
            let exp := Z.of_nat (String.length ds) - 1 in
            let sig := rev (strip_zeros (rev (list_ascii_of_string ds))) in
            (if n <? 0 then "-" else "")
            +:+ string_of_list_ascii (firstn 1 sig)
            +:+ (if (length sig <=? 1)%nat then ""
                 else "." +:+ string_of_list_ascii (skipn 1 sig))
            +:+ "e+" +:+ (if exp <? 10 then "0" else "") +:+ decimal exp
          else "%!v(float64 outside the fragment)"
      | None => "%!v(float64 outside the fragment)"
      end
  end.

(** [fmt.Sprintf("%v", v)] *)
Fixpoint Sprint_v (v : value) : string :=
  match v with
  | VNil => "<nil>"
  | VBool b => if b then "true" else "false"
  | VFloat64 f => fmt_float f
  | VString s => s
  | VSlice l => "[" +:+ join " " (map Sprint_v l) +:+ "]"
  | VMap None => "map[]"
  | VMap (Some m) =>
      "map["
      +:+ join " "
            (map (fun kv : string * string => fst kv +:+ ":" +:+ snd kv)
               (sorted_entries (map_fold (fun k x acc => (k, Sprint_v x) :: acc) [] m)))
      +:+ "]"
  end.

Definition fold_key (s : string) : string :=
  string_of_list_ascii (map toLower (list_ascii_of_string s)).

Definition zeroResponse : JSONRPCResponse :=
  {| JSONRPCResponse.JSONRPC := EmptyString;
     JSONRPCResponse.Result := VNil;
     JSONRPCResponse.Error := VNil;
     JSONRPCResponse.ID := 0 |}.

(** The members of the envelope assigned to the fields of the struct, in
    the order of the text; keys are matched without regard to case, an
    unknown key is skipped, [null] leaves a string or an int as it is. *)
Fixpoint fill (members : list (string * json)) (acc : JSONRPCResponse)
  : result JSONRPCResponse :=
  match members with
  | [] => Ok acc
  | (k, x) :: rest =>
      let key := fold_key k in
      if String.eqb key "jsonrpc" then
        match x with
        | JString s =>
            fill rest
              {| JSONRPCResponse.JSONRPC := s;
                 JSONRPCResponse.Result := JSONRPCResponse.Result acc;
                 JSONRPCResponse.Error := JSONRPCResponse.Error acc;
                 JSONRPCResponse.ID := JSONRPCResponse.ID acc |}
        | JNull => fill rest acc
        | _ => Err "json: cannot unmarshal into Go struct field JSONRPCResponse.jsonrpc of type string"
        end
      else if String.eqb key "result" then
        match to_value x with
        | Some v =>
            fill rest
              {| JSONRPCResponse.JSONRPC := JSONRPCResponse.JSONRPC acc;
                 JSONRPCResponse.Result := v;
                 JSONRPCResponse.Error := JSONRPCResponse.Error acc;
                 JSONRPCResponse.ID := JSONRPCResponse.ID acc |}
        | None => Err "json: cannot unmarshal number into Go value of type float64"
        end
      else if String.eqb key "error" then
        match to_value x with
        | Some v =>
            fill rest
              {| JSONRPCResponse.JSONRPC := JSONRPCResponse.JSONRPC acc;
                 JSONRPCResponse.Result := JSONRPCResponse.Result acc;
                 JSONRPCResponse.Error := v;
                 JSONRPCResponse.ID := JSONRPCResponse.ID acc |}
        | None => Err "json: cannot unmarshal number into Go value of type float64"
        end
      else if String.eqb key "id" then
        match x with
        | JNumber neg n =>
            let i := if neg then - Z.of_N n else Z.of_N n in
            if (- 2 ^ 63 <=? i) && (i <? 2 ^ 63)
            then
              fill rest
                {| JSONRPCResponse.JSONRPC := JSONRPCResponse.JSONRPC acc;
                   JSONRPCResponse.Result := JSONRPCResponse.Result acc;
                   JSONRPCResponse.Error := JSONRPCResponse.Error acc;
                   JSONRPCResponse.ID := i |}
            else Err "json: cannot unmarshal number into Go struct field JSONRPCResponse.id of type int"
        | JNull => fill rest acc
        | _ => Err "json: cannot unmarshal into Go struct field JSONRPCResponse.id of type int"
        end
      else fill rest acc
  end.

Definition stream (b : Body) : bytes :=
  match b with BodyOf data => data | BodyBroken data _ => data end.

Definition Decode (b : Body) : result JSONRPCResponse :=
  match parse_first (stream b) with
  | Some (JObject members, _) => fill members zeroResponse
  | Some (JNull, _) => Ok zeroResponse
  | Some _ => Err "json: cannot unmarshal into Go value of type main.JSONRPCResponse"
  | None =>
      match b with
      | BodyBroken _ err => Err err
      | BodyOf _ => Err "json: no value of the fragment at the start of the stream"
      end
  end.

Definition Valid (data : bytes) : bool :=
  match parse_document data with Some _ => true | None => false end.

Definition Unmarshal (data : bytes) : result gomap :=
  match parse_document data with
  | None => Err "json: not a document of the fragment"
  | Some JNull => Ok None
  | Some (JObject members) =>
      match to_value (JObject members) with
      | Some (VMap m) => Ok m
      | _ => Err "json: cannot unmarshal number into Go value of type float64"
      end
  | Some _ => Err "json: cannot unmarshal into Go value of type map[string]interface {}"
  end.

Definition Marshal (m : gomap) : result bytes :=
  match encode (VMap m) with
  | Some s => Ok s
  | None => Err "json: value outside the fragment"
  end.

Definition MarshalRequest (req : JSONRPCRequest) : result bytes :=
  match quote (JSONRPCRequest.JSONRPC req), quote (JSONRPCRequest.Method req),
        encode (JSONRPCRequest.Params req) with
  | Some jsonrpc, Some method, Some params =>
      Ok ("{" +:+ String dquote "jsonrpc" +:+ String dquote ":" +:+ jsonrpc
          +:+ "," +:+ String dquote "method" +:+ String dquote ":" +:+ method
          +:+ "," +:+ String dquote "params" +:+ String dquote ":" +:+ params
          +:+ "," +:+ String dquote "id" +:+ String dquote ":"
          +:+ decimal (JSONRPCRequest.ID req) +:+ "}")
  | _, _, _ => Err "json: value outside the fragment"
  end.

(** The checks of [http.NewRequest] kept here: the method is empty or a
    token, and the URL has no control character. *)
Definition NewRequest_err (method url : string) : option error :=
  if negb (forallb validHeaderFieldByte (list_ascii_of_string method))
  then Some "net/http: invalid method"
  else if existsb (fun c => (N_of_ascii c <? 32)%N || (N_of_ascii c =? 127)%N)
            (list_ascii_of_string url)
  then Some "net/url: invalid control character in URL"
  else None.

Lemma Unmarshal_rejects_invalid (data : bytes) :
  Valid data = false -> exists err, Unmarshal data = Err err.
Proof.
  unfold Valid, Unmarshal.
  destruct (parse_document data); [discriminate | eauto].
Qed.

#[export] Instance lib : GoLib := {|
  json_Valid := Valid;
  json_Unmarshal := Unmarshal;
  json_Marshal := Marshal;
  json_MarshalRequest := MarshalRequest;
  json_Decode := Decode;
  fmt_v := Sprint_v;
  http_NewRequest_err := NewRequest_err;
  json_Unmarshal_invalid := Unmarshal_rejects_invalid
|}.

(** A document written with apostrophes for its double quotes. *)
Definition js (s : string) : string :=
  string_of_list_ascii
    (map (fun c => if Ascii.eqb c "'" then dquote else c) (list_ascii_of_string s)).

End Ref.

(** ** Concrete worlds

    The state of the world counts the outbound calls that were answered. *)
Module Example.

Definition stack (transform : string -> bytes -> result Response)
    (target : ClientRequest -> result Response) : Client nat :=
  Client.mk (fun url _ body n => (transform url body, Datatypes.S n))
            (fun req n => (target req, Datatypes.S n)).

Definition answer (status : Z) (h : Header) (body : bytes) : Response :=
  {| Response.StatusCode := status;
     Response.Header := h;
     Response.Body := BodyOf body |}.

Definition rule (tag pre post : string) : TransformRule :=
  {| TransformRule.Tag := tag;
     TransformRule.From := "anthropic";
     TransformRule.To := "openai";
     TransformRule.Params := None;
     TransformRule.Pre := pre;
     TransformRule.Post := post |}.

(** POST /v1/chat?trace=1 with a JSON content type. *)
Definition request (body : bytes) : Request :=
  {| Request.Method := "POST";
     Request.URL := {| URL.Path := "/v1/chat"; URL.RawQuery := "trace=1" |};
     Request.Header := {["Content-Type" := ["application/json"]]};
     Request.Body := BodyOf body |}.

Definition proxy (rules : list TransformRule) (c : Client nat) : LLMSed nat :=
  LLMSed.mk (Config.mk rules) "http://upstream" c.

Definition refused (url : string) (body : bytes) : result Response :=
  Err "dial tcp 127.0.0.1:9001: connect: connection refused".

(** A transform service that answers every call with the given result. *)
Definition transform_to (result_text : string) (url : string) (body : bytes)
  : result Response :=
  Ok (answer 200 {["Content-Type" := ["application/json"]]}
        (Ref.js "{'jsonrpc':'2.0','result':" +:+ result_text +:+ Ref.js ",'id':1}")).

(** The target of the end-to-end test: 200, X-Test: a, {"x":1}. *)
Definition echo (req : ClientRequest) : result Response :=
  Ok (answer 200 {["X-Test" := ["a"]]} (Ref.js "{'x':1}")).

(** A target whose body is not JSON. *)
Definition html (req : ClientRequest) : result Response :=
  Ok (answer 200 {["Content-Type" := ["text/html"]]} "<html>busy</html>").

(** A target whose body has blanks that the encoder does not write. *)
Definition spaced (req : ClientRequest) : result Response :=
  Ok (answer 200 {["Content-Length" := ["11"]]} (Ref.js "{ 'x' : 1 }")).

End Example.

(** ** llsed.go: what [callRPC] sends and what it makes of the answer *)

(** The request envelope of lines 67-72. *)
Definition envelope (payload : value) : JSONRPCRequest :=
  {| JSONRPCRequest.JSONRPC := "2.0";
     JSONRPCRequest.Method := "transform";
     JSONRPCRequest.Params := payload;
     JSONRPCRequest.ID := 1 |}.

Section Answer.
Context {lib : GoLib}.

(** Lines 80-94: what [callRPC] returns for the answer of [httpClient.Post];
    the status code and the headers of the response are not looked at. *)
Definition answer_of (res : result Response) : result value :=
  match res with
  | Err err => Err err
  | Ok resp =>
  match json_Decode (Response.Body resp) with
  | Err err => Err err
  | Ok rpcResp =>
  if negb (is_nil (JSONRPCResponse.Error rpcResp))
  then Err ("rpc error: " +:+ fmt_v (JSONRPCResponse.Error rpcResp))
  else Ok (JSONRPCResponse.Result rpcResp)
  end end.

End Answer.

(** ** strings *)

(** [strings.HasSuffix(s, suffix)]:
    [len(s) >= len(suffix) && s[len(s)-len(suffix):] == suffix] *)
Definition HasSuffix (s suffix : string) : bool :=
  (String.length suffix <=? String.length s)%nat
  && String.eqb
       (substring (String.length s - String.length suffix) (String.length suffix) s)
       suffix.

(** [strings.TrimSuffix(s, suffix)]: [s[:len(s)-len(suffix)]] when [s] has
    the suffix, [s] otherwise. *)
Definition TrimSuffix (s suffix : string) : string :=
  if HasSuffix s suffix
  then substring 0 (String.length s - String.length suffix) s
  else s.

(** ** llsed.go: start-up *)

(** What start-up takes from outside the program: the file system, and
    [json.Unmarshal(data, &config)] for a zero [Config]. *)
Class Host : Type := {
  os_ReadFile : string -> result bytes;
  json_UnmarshalConfig : bytes -> result Config
}.

(** The command-line flags of [main], and their defaults. *)
Module Flags.
Record t : Type := mk {
  host : string;
  port : Z;
  map_file : string;
  server : string
}.
End Flags.
Abbreviation Flags := Flags.t.

Definition defaultFlags : Flags :=
  {| Flags.host := "0.0.0.0";
     Flags.port := 8080;
     Flags.map_file := "config.json";
     Flags.server := "https://api.openai.com" |}.

Section Startup.
Context {host : Host} {S : Type}.

(** [NewLLMSed(configPath, serverURL)]; the [&http.Client{}] it makes is
    the way to the outside world, given here as [httpClient]. *)
Definition NewLLMSed (configPath serverURL : string) (httpClient : Client S)
  : result (LLMSed S) :=
  match os_ReadFile configPath with
  | Err err => Err ("failed to read config: " +:+ err)
  | Ok data =>
  match json_UnmarshalConfig data with
  | Err err => Err ("failed to parse config: " +:+ err)
  | Ok config =>
      Ok {| LLMSed.config := config;
            LLMSed.serverURL := serverURL;
            LLMSed.httpClient := httpClient |}
  end end.

(** [main] up to [http.ListenAndServe]: the address it binds and the
    handler's receiver, or the message of [log.Fatalf]. *)
Definition main_init (flags : Flags) (httpClient : Client S)
  : result (string * LLMSed S) :=
  (* Trim trailing slash from server URL *)
  let server := TrimSuffix (Flags.server flags) "/" in
  match NewLLMSed (Flags.map_file flags) server httpClient with
  | Err err => Err ("Failed to initialize llmsed: " +:+ err)
  | Ok llmsed =>
      let addr := Flags.host flags +:+ ":" +:+ Ref.decimal (Flags.port flags) in
      Ok (addr, llmsed)
  end.

End Startup.

(** ** A concrete host *)
Module Fixture.

(** A configuration in the shape of the README's: one rule, with both
    endpoints. *)
Definition readme_config : Config :=
  {| Config.Rules :=
       [ {| TransformRule.Tag := "claude_to_openai";
            TransformRule.From := "anthropic";
            TransformRule.To := "openai";
            TransformRule.Params := Some ∅;
            TransformRule.Pre := "http://localhost:9001";
            TransformRule.Post := "http://localhost:9002" |} ] |}.

Definition readme_text : bytes :=
  Ref.js "{'rules':[{'tag':'claude_to_openai','from':'anthropic','to':'openai','params':{},'pre':'http://localhost:9001','post':'http://localhost:9002'}]}".

(** A file system with the file [config.json] alone, and a decoder that
    knows the text of that file. *)
#[export] Instance host : Host := {|
  os_ReadFile path :=
    if String.eqb path "config.json" then Ok readme_text
    else Err ("open " +:+ path +:+ ": no such file or directory");
  json_UnmarshalConfig data :=
    if String.eqb data readme_text then Ok readme_config
    else Err "invalid character 'o' looking for beginning of value"
|}.

End Fixture.

(** ** More services *)
Module Services.

(** A transform service that answers with the given status, headers and
    text. *)
Definition replying (status : Z) (h : Header) (text : string)
    (url : string) (body : bytes) : result Response :=
  Ok (Example.answer status h text).

(** An envelope that carries an error indicator beside a result. *)
Definition both : string :=
  Ref.js "{'jsonrpc':'2.0','result':{'x':1},'error':'boom','id':1}".

(** An envelope with a result alone. *)
Definition fine : string :=
  Ref.js "{'jsonrpc':'2.0','result':{'x':1},'id':1}".

(** A target that cannot be reached. *)
Definition down (req : ClientRequest) : result Response :=
  Err "dial tcp 127.0.0.1:443: connect: connection refused".

End Services.

(** * The pipeline, proved *)

(** ** Running the handler step by step *)

Section Runs.
Context {lib : GoLib} {S : Type}.


Lemma http_Error_fresh (msg : string) (code : Z) (wd : S) (tr : list Event) :
  (code <? 100) || (999 <? code) = false ->
  http_Error msg code (State.mk wd tr newResponseWriter)
  = (Next tt, State.mk wd tr (errorWriter code msg)).
Proof.
  intros Hc. unfold http_Error, bind, updHeader, WriteHeader, Write, bind, WriteHeader. cbn.
  rewrite Hc. cbn. reflexivity.
Qed.

(** What a call of [callRPC] can do to the state: it goes on, leaves the
    response writer alone and makes at most one call, a POST to its
    endpoint. *)
Lemma callRPC_run (l : LLMSed S) (e : string) (v : value) (wd : S)
    (tr : list Event) (w : ResponseWriter) :
  exists res wd' evs,
    callRPC l e v (State.mk wd tr w) = (Next res, State.mk wd' (tr ++ evs) w)
    /\ (evs = [] \/ exists body r, evs = [EvPost e "application/json" body r]).
Proof.
  unfold callRPC.
  destruct (json_MarshalRequest _) as [body|err].
  2:{ exists (Err err), wd, []. rewrite app_nil_r. split; [reflexivity | left; reflexivity]. }
  unfold bind, client_Post. cbn.
  destruct (Client.Post _ _ _ _ _) as [res wd'] eqn:HP.
  assert (Hev : [EvPost e "application/json" body res] = [] \/
                exists body0 r, [EvPost e "application/json" body res]
                                = [EvPost e "application/json" body0 r])
    by (right; eauto).
  destruct res as [resp|err]; [|eexists _, _, _; split; [reflexivity | exact Hev]].
  destruct (json_Decode _) as [rpcResp|err]; [|eexists _, _, _; split; [reflexivity | exact Hev]].
  destruct (negb _); eexists _, _, _; (split; [reflexivity | exact Hev]).
Qed.

End Runs.

Ltac exec_step :=
  match goal with
  | |- context [http_Error ?m ?c (State.mk ?wd ?tr _)] =>
      rewrite (http_Error_fresh m c wd tr) by reflexivity
  | |- context [callRPC ?l ?e ?v (State.mk ?wd ?tr ?w)] =>
      let H := fresh "Hrpc" in
      let Hev := fresh "Hev" in
      destruct (callRPC_run l e v wd tr w) as (? & ? & ? & H & Hev); rewrite H; clear H;
      destruct Hev as [->|(? & ? & ->)]
  | |- context [http_NewRequest _ _ _] => unfold http_NewRequest
  | |- context [Client.Do ?c ?req ?wd] =>
      let H := fresh "Hdo" in destruct (Client.Do c req wd) as [? ?] eqn:H
  | |- context [match ?x with _ => _ end] =>
      lazymatch x with
      | context [match _ with _ => _ end] => fail
      | _ => destruct x eqn:?
      end
  end.

Ltac exec_simpl :=
  unfold bind, ret, return_, panic, assert_map, client_Do, updHeader, WriteHeader, Write;
  cbn beta iota;
  cbn [fst snd State.w State.trace State.world app
       ResponseWriter.Header ResponseWriter.status ResponseWriter.body
       newResponseWriter errorWriter default String.append negb
       ClientRequest.Method ClientRequest.URL ClientRequest.Header
       ClientRequest.Body].

(** Membership of an event in a trace that is a list of known shape. *)
Ltac in_trace :=
  repeat match goal with
    | H : _ ∈ [] |- _ => apply elem_of_nil in H; contradiction
    | H : _ ∈ _ :: _ |- _ => apply elem_of_cons in H; destruct H as [H|H]
    | H : ?e = _ |- _ => is_var e; subst e
    | H : _ ∈ _ ++ _ |- _ => cbn [app] in H
    | H : EvDo _ _ = EvDo _ _ |- _ => simplify_eq
    | H : EvPost _ _ _ _ = EvPost _ _ _ _ |- _ => simplify_eq
    | H : EvDo _ _ = EvPost _ _ _ _ |- _ => discriminate H
    | H : EvPost _ _ _ _ = EvDo _ _ |- _ => discriminate H
    end.

Ltac exec :=
  unfold serve, handleProxy, client_view, trace_of;
  repeat (exec_simpl; exec_step); exec_simpl.

(** ** Copying a header map *)

Lemma add_values (k : string) (vs pre : list string) (h : Header) :
  CanonicalMIMEHeaderKey k = k ->
  h !! k = Some pre ->
  foldl (fun dst value => Header.Add k value dst) h vs = <[k := pre ++ vs]> h.
Proof.
  intros Hk. revert pre h. induction vs as [|v vs IH]; intros pre h Hpre.
  - cbn. rewrite app_nil_r. symmetry. apply insert_id. exact Hpre.
  - cbn [foldl]. unfold Header.Add at 2. rewrite Hk, Hpre. cbn [default].
    rewrite (IH (pre ++ [v]) _ (lookup_insert_eq _ _ _)).
    rewrite insert_insert_eq, <- app_assoc. reflexivity.
Qed.

Lemma add_values_fresh (k : string) (v : string) (vs : list string) (h : Header) :
  CanonicalMIMEHeaderKey k = k ->
  h !! k = None ->
  foldl (fun dst value => Header.Add k value dst) h (v :: vs) = <[k := v :: vs]> h.
Proof.
  intros Hk Hnone. cbn [foldl]. unfold Header.Add at 2. rewrite Hk, Hnone. cbn [default app].
  rewrite (add_values k vs [v] _ Hk (lookup_insert_eq _ _ _)).
  rewrite insert_insert_eq. reflexivity.
Qed.

(** Copied onto an empty map, a header map from the wire comes out as it
    is. *)
Lemma copyHeaders_wire (h : Header) :
  wire_header h -> copyHeaders h ∅ = h.
Proof.
  unfold copyHeaders.
  apply (map_fold_weak_ind (fun r (m : Header) => wire_header m -> r = m)).
  - reflexivity.
  - intros k vs m r Hfresh IH Hwire.
    assert (Hm : wire_header m).
    { intros k' vs' Hk'. apply (Hwire k' vs').
      rewrite lookup_insert_ne; [exact Hk'|]. intros ->. congruence. }
    specialize (IH Hm). subst r.
    destruct (Hwire k vs (lookup_insert_eq _ _ _)) as [Hk Hvs].
    destruct vs as [|v vs]; [congruence|].
    apply add_values_fresh; assumption.
Qed.

(** ** Two runs against a deterministic stack *)

Section Lockstep.
Context {lib : GoLib} {S : Type}.


End Lockstep.


(** ** The claims *)

Section Claims.
Context {lib : GoLib} {S : Type}.

(** C1, as the code has it. When the pre-transform call succeeds with a
    result that is not an object, the type assertion panics: nothing is
    written to the response writer and the client gets no reply. *)
Theorem C1_pre_result_not_object_panics
    (l : LLMSed S) (r : Request) (s : S) (rule : TransformRule)
    (body : bytes) (payload : gomap) (v : value) (st' : State S) :
  io_ReadAll (Request.Body r) = Ok body ->
  json_Unmarshal body = Ok payload ->
  Config.Rules (LLMSed.config l) !! 0%nat = Some rule ->
  TransformRule.Pre rule <> EmptyString ->
  callRPC l (TransformRule.Pre rule) (VMap payload)
    (State.mk s [] newResponseWriter) = (Next (Ok v), st') ->
  (forall m, v <> VMap m) ->
  fst (serve l r s)
  = Panic ("interface conversion: interface {} is " +:+ typeName v
           +:+ ", not map[string]interface {}")
  /\ client_view (serve l r s) = Aborted.
Proof.
  intros Hrd Hun Hrule Hpre Hrpc Hv.
  assert (Hlen : (length (Config.Rules (LLMSed.config l)) =? 0)%nat = false).
  { destruct (Config.Rules (LLMSed.config l)); [discriminate | reflexivity]. }
  apply String.eqb_neq in Hpre.
  destruct (callRPC_run l (TransformRule.Pre rule) (VMap payload) s []
              newResponseWriter) as (res & wd' & evs & Hrun & Hev).
  rewrite Hrun in Hrpc. injection Hrpc as -> <-.
  unfold serve, handleProxy, client_view, trace_of, newResponseWriter in *.
  rewrite Hrd, Hun, Hlen, Hrule, Hpre.
  repeat exec_simpl. rewrite Hrun. repeat exec_simpl.
  destruct v; try (split; reflexivity).
  exfalso. eapply Hv. reflexivity.
Qed.

(** C2. With no pre and no post endpoint, a target that answers the
    forward call with status 200, the header X-Test: a and the body
    {"x":1} gives the client status 200, the header X-Test: a and, the
    document being decoded and encoded again, the body {"x":1}. *)
Theorem C2_passthrough_end_to_end
    (l : LLMSed S) (r : Request) (s : S) (rule : TransformRule)
    (req : ClientRequest) (m : gomap) :
  Config.Rules (LLMSed.config l) !! 0%nat = Some rule ->
  TransformRule.Pre rule = EmptyString ->
  TransformRule.Post rule = EmptyString ->
  EvDo req
    (Ok {| Response.StatusCode := 200;
           Response.Header := {["X-Test" := ["a"]]};
           Response.Body := BodyOf (Ref.js "{'x':1}") |})
    ∈ trace_of (serve l r s) ->
  json_Unmarshal (Ref.js "{'x':1}") = Ok m ->
  json_Marshal m = Ok (Ref.js "{'x':1}") ->
  client_view (serve l r s) = Reply 200 {["X-Test" := ["a"]]} (Ref.js "{'x':1}").
Proof.
  intros Hrule Hpre Hpost Hin Hun Hma.
  apply String.eqb_eq in Hpre, Hpost.
  revert Hin. unfold serve, handleProxy, client_view, trace_of.
  rewrite Hrule, Hpre, Hpost.
  exec; intros Hin; in_trace.
  all: cbn [io_ReadAll Response.Body Response.StatusCode Response.Header] in *.
  all: simplify_eq.
  all: try congruence.
  all: match goal with
       | Hm : json_Marshal _ = Ok ?out |- context [?out] =>
           assert (out = Ref.js "{'x':1}") by congruence; subst out
       end.
  all: rewrite copyHeaders_wire; [reflexivity|].
  all: intros k vs Hk; apply lookup_singleton_Some in Hk as [<- <-].
  all: split; [reflexivity | discriminate].
Qed.

(** C3. With two rules or more the handler runs as it does with the rule
    at index 0 alone, whatever the request, and every transform call goes
    to the pre or to the post endpoint of that rule. *)
Theorem C3_only_rule_zero_applies
    (l : LLMSed S) (r : Request) (s : S)
    (rule0 rule1 : TransformRule) (rest : list TransformRule) :
  Config.Rules (LLMSed.config l) = rule0 :: rule1 :: rest ->
  serve l r s
  = serve (LLMSed.mk (Config.mk [rule0]) (LLMSed.serverURL l) (LLMSed.httpClient l)) r s
  /\ forall url ct b res,
       EvPost url ct b res ∈ trace_of (serve l r s) ->
       url = TransformRule.Pre rule0 \/ url = TransformRule.Post rule0.
Proof.
  intros Hrules. split.
  - unfold serve, handleProxy, callRPC. rewrite Hrules. reflexivity.
  - intros url ct b res. unfold serve, handleProxy, trace_of. rewrite Hrules.
    cbn [length Nat.eqb lookup list_lookup].
    exec; intros Hin; in_trace; auto.
Qed.


(** C5. When the pre-transform call fails, the client gets 500 with a
    message that starts with "pre-transform failed: " and carries the
    error, and the trace has no forward call. *)
Theorem C5_pre_transform_failure (l : LLMSed S) (r : Request) (s : S)
    (rule : TransformRule) (body : bytes) (payload : gomap)
    (err : error) (st' : State S) :
  io_ReadAll (Request.Body r) = Ok body ->
  json_Unmarshal body = Ok payload ->
  Config.Rules (LLMSed.config l) !! 0%nat = Some rule ->
  TransformRule.Pre rule <> EmptyString ->
  callRPC l (TransformRule.Pre rule) (VMap payload)
    (State.mk s [] newResponseWriter) = (Next (Err err), st') ->
  client_view (serve l r s)
  = errorReply StatusInternalServerError ("pre-transform failed: " +:+ err)
  /\ forall e, e ∈ trace_of (serve l r s) -> is_forward e = false.
Proof.
  intros Hrd Hun Hrule Hpre Hrpc.
  assert (Hlen : (length (Config.Rules (LLMSed.config l)) =? 0)%nat = false).
  { destruct (Config.Rules (LLMSed.config l)); [discriminate | reflexivity]. }
  apply String.eqb_neq in Hpre.
  destruct (callRPC_run l (TransformRule.Pre rule) (VMap payload) s []
              newResponseWriter) as (res & wd' & evs & Hrun & Hev).
  rewrite Hrun in Hrpc. injection Hrpc as -> <-.
  unfold serve, handleProxy, client_view, trace_of, newResponseWriter in *.
  rewrite Hrd, Hun, Hlen, Hrule, Hpre.
  repeat exec_simpl. rewrite Hrun. repeat exec_simpl.
  rewrite http_Error_fresh by reflexivity. exec_simpl.
  split; [reflexivity|].
  intros e He. destruct Hev as [->|(? & ? & ->)]; in_trace; reflexivity.
Qed.

(** C6, amended. With an empty ruleset no outbound call is made, and the
    reply is decided by the body alone: 400 when it cannot be read or
    decoded, 500 "no transformation rules configured" otherwise. *)
Theorem C6_empty_ruleset (l : LLMSed S) (r : Request) (s : S) :
  Config.Rules (LLMSed.config l) = [] ->
  trace_of (serve l r s) = []
  /\ client_view (serve l r s)
     = match io_ReadAll (Request.Body r) with
       | Err _ => errorReply StatusBadRequest "failed to read request"
       | Ok body =>
           match json_Unmarshal body with
           | Err _ => errorReply StatusBadRequest "invalid json"
           | Ok _ =>
               errorReply StatusInternalServerError
                 "no transformation rules configured"
           end
       end.
Proof.
  intros Hrules. unfold serve, handleProxy. rewrite Hrules.
  cbn [length Nat.eqb].
  destruct (io_ReadAll (Request.Body r)) as [body|err];
    [destruct (json_Unmarshal body) as [payload|err]|];
    exec; split; reflexivity.
Qed.

(** C7. When the target server has answered a forward call with a body
    that is not valid JSON, the client gets 502 with the fixed text of
    [http.Error] and its headers: nothing of the upstream response (status,
    headers, body) is relayed. *)
Theorem C7_invalid_upstream_json_is_bad_gateway
    (l : LLMSed S) (r : Request) (s : S)
    (req : ClientRequest) (resp : Response) (b : bytes) :
  EvDo req (Ok resp) ∈ trace_of (serve l r s) ->
  io_ReadAll (Response.Body resp) = Ok b ->
  json_Valid b = false ->
  client_view (serve l r s)
  = errorReply StatusBadGateway "invalid response from target".
Proof.
  intros Hin Hrd Hinv.
  destruct (json_Unmarshal_invalid b Hinv) as [e He].
  revert Hin. exec.
  all: intros Hin; in_trace.
  all: try congruence.
  all: reflexivity.
Qed.


(** C9. The handler does not read the query string: changing it changes
    nothing in the run, and every forward call is made to the target base
    URL followed by the inbound path. *)
Theorem C9_query_string_dropped
    (l : LLMSed S) (r : Request) (s : S) (query : string) :
  serve l
    {| Request.Method := Request.Method r;
       Request.URL := {| URL.Path := URL.Path (Request.URL r); URL.RawQuery := query |};
       Request.Header := Request.Header r;
       Request.Body := Request.Body r |} s
  = serve l r s
  /\ forall req res,
       EvDo req res ∈ trace_of (serve l r s) ->
       ClientRequest.URL req = LLMSed.serverURL l +:+ URL.Path (Request.URL r).
Proof.
  split; [reflexivity|].
  intros req res. exec; intros Hin; in_trace; reflexivity.
Qed.

(** C10. With no post endpoint, the reply carries the upstream headers as
    they came, Content-Length among them, and the body is the upstream
    document encoded again: when the encoding has another length than
    the upstream body, the Content-Length relayed to the client is not
    the length of the body written. *)
Theorem C10_content_length_relayed_unchanged
    (l : LLMSed S) (r : Request) (s : S) (rule : TransformRule)
    (req : ClientRequest) (status : Z) (h : Header) (b out : bytes) (m : gomap) :
  Config.Rules (LLMSed.config l) !! 0%nat = Some rule ->
  TransformRule.Post rule = EmptyString ->
  EvDo req
    (Ok {| Response.StatusCode := status;
           Response.Header := h;
           Response.Body := BodyOf b |})
    ∈ trace_of (serve l r s) ->
  (status <? 100) || (999 <? status) = false ->
  wire_header h ->
  h !! "Content-Length" = Some [Ref.decimal (Z.of_nat (String.length b))] ->
  json_Unmarshal b = Ok m ->
  json_Marshal m = Ok out ->
  String.length out <> String.length b ->
  exists header body,
    client_view (serve l r s) = Reply status header body
    /\ header !! "Content-Length" = Some [Ref.decimal (Z.of_nat (String.length b))]
    /\ body = out
    /\ String.length body <> String.length b.
Proof.
  intros Hrule Hpost Hin Hstatus Hwire Hcl Hun Hma Hlen.
  exists h, out. split; [|auto].
  apply String.eqb_eq in Hpost.
  revert Hin. unfold serve, handleProxy, client_view, trace_of.
  rewrite Hrule, Hpost.
  exec; intros Hin; in_trace.
  all: cbn [io_ReadAll Response.Body Response.StatusCode Response.Header] in *.
  all: simplify_eq.
  all: try congruence.
  all: match goal with
       | Hm : json_Marshal _ = Ok ?x |- context [?x] =>
           assert (x = out) by congruence; subst x
       end.
  all: rewrite copyHeaders_wire by assumption; reflexivity.
Qed.

End Claims.

(** ** The claims on concrete runs *)

Section Runs_of_the_examples.
Import Example.

(** A pre-transform service answers with the array [[1]]: the handler
    panics. *)
Lemma C1_pre_result_not_object_panics_witness :
  fst (serve (lib := Ref.lib)
         (proxy [rule "r" "http://pre" ""] (stack (transform_to "[1]") echo))
         (request (Ref.js "{'m':1}")) 0%nat)
  = Panic "interface conversion: interface {} is []interface {}, not map[string]interface {}"
  /\ client_view
       (serve (lib := Ref.lib)
          (proxy [rule "r" "http://pre" ""] (stack (transform_to "[1]") echo))
          (request (Ref.js "{'m':1}")) 0%nat)
     = Aborted.
Proof.
  eapply (C1_pre_result_not_object_panics (lib := Ref.lib)
            _ _ _ (rule "r" "http://pre" "") _ _ (VSlice _)).
  - reflexivity.
  - vm_compute. reflexivity.
  - reflexivity.
  - discriminate.
  - vm_compute. reflexivity.
  - discriminate.
Defined.

(** The end-to-end test of the spec. *)
Lemma C2_passthrough_end_to_end_witness :
  client_view
    (serve (lib := Ref.lib) (proxy [rule "r" "" ""] (stack refused echo))
       (request (Ref.js "{'m':1}")) 0%nat)
  = Reply 200 {["X-Test" := ["a"]]} (Ref.js "{'x':1}").
Proof.
  eapply (C2_passthrough_end_to_end (lib := Ref.lib) _ _ _ (rule "r" "" "")).
  - reflexivity.
  - reflexivity.
  - reflexivity.
  - vm_compute. apply list_elem_of_here.
  - vm_compute. reflexivity.
  - vm_compute. reflexivity.
Defined.

(** Two rules with their own endpoints: only those of the first are
    called. *)
Lemma C3_only_rule_zero_applies_witness :
  serve (lib := Ref.lib)
    (proxy [rule "r0" "http://pre0" "http://post0"; rule "r1" "http://pre1" "http://post1"]
       (stack (transform_to (Ref.js "{'t':true}")) echo))
    (request (Ref.js "{'m':1}")) 0%nat
  = serve (lib := Ref.lib)
      (proxy [rule "r0" "http://pre0" "http://post0"]
         (stack (transform_to (Ref.js "{'t':true}")) echo))
      (request (Ref.js "{'m':1}")) 0%nat
  /\ forall url ct b res,
       EvPost url ct b res
       ∈ trace_of
           (serve (lib := Ref.lib)
              (proxy [rule "r0" "http://pre0" "http://post0";
                      rule "r1" "http://pre1" "http://post1"]
                 (stack (transform_to (Ref.js "{'t':true}")) echo))
              (request (Ref.js "{'m':1}")) 0%nat) ->
       url = "http://pre0" \/ url = "http://post0".
Proof.
  exact (C3_only_rule_zero_applies (lib := Ref.lib)
           (proxy [rule "r0" "http://pre0" "http://post0";
                   rule "r1" "http://pre1" "http://post1"]
              (stack (transform_to (Ref.js "{'t':true}")) echo))
           (request (Ref.js "{'m':1}")) 0%nat
           (rule "r0" "http://pre0" "http://post0")
           (rule "r1" "http://pre1" "http://post1") [] eq_refl).
Defined.


(** The pre-transform endpoint refuses the connection: 500, and the
    target is not called. *)
Lemma C5_pre_transform_failure_witness :
  client_view
    (serve (lib := Ref.lib) (proxy [rule "r" "http://pre" ""] (stack refused echo))
       (request (Ref.js "{'m':1}")) 0%nat)
  = errorReply StatusInternalServerError
      ("pre-transform failed: "
       +:+ "dial tcp 127.0.0.1:9001: connect: connection refused")
  /\ forall e,
       e ∈ trace_of
             (serve (lib := Ref.lib)
                (proxy [rule "r" "http://pre" ""] (stack refused echo))
                (request (Ref.js "{'m':1}")) 0%nat) ->
       is_forward e = false.
Proof.
  eapply (C5_pre_transform_failure (lib := Ref.lib)
            _ _ _ (rule "r" "http://pre" "")).
  - reflexivity.
  - vm_compute. reflexivity.
  - reflexivity.
  - discriminate.
  - vm_compute. reflexivity.
Defined.

(** C6 as stated fails: with an empty ruleset a body that is not JSON is
    answered with the client-side failure 400 "invalid json", not with a
    server-side failure about the rules. *)
Lemma C6_empty_ruleset_counterexample :
  Config.Rules (LLMSed.config (proxy [] (stack refused echo))) = []
  /\ client_view
       (serve (lib := Ref.lib) (proxy [] (stack refused echo)) (request "oops") 0%nat)
     = errorReply StatusBadRequest "invalid json"
  /\ client_view
       (serve (lib := Ref.lib) (proxy [] (stack refused echo)) (request "oops") 0%nat)
     <> errorReply StatusInternalServerError "no transformation rules configured".
Proof.
  split; [reflexivity|]. split; [vm_compute; reflexivity|].
  vm_compute. discriminate.
Qed.

(** An empty ruleset and a JSON body: 500, no outbound call. *)
Lemma C6_empty_ruleset_witness :
  trace_of
    (serve (lib := Ref.lib) (proxy [] (stack refused echo))
       (request (Ref.js "{'m':1}")) 0%nat) = []
  /\ client_view
       (serve (lib := Ref.lib) (proxy [] (stack refused echo))
          (request (Ref.js "{'m':1}")) 0%nat)
     = errorReply StatusInternalServerError "no transformation rules configured".
Proof.
  exact (C6_empty_ruleset (lib := Ref.lib) (proxy [] (stack refused echo))
           (request (Ref.js "{'m':1}")) 0%nat eq_refl).
Defined.

(** The target answers with HTML: 502. *)
Lemma C7_invalid_upstream_json_is_bad_gateway_witness :
  client_view
    (serve (lib := Ref.lib) (proxy [rule "r" "" ""] (stack refused html))
       (request (Ref.js "{'m':1}")) 0%nat)
  = errorReply StatusBadGateway "invalid response from target".
Proof.
  eapply (C7_invalid_upstream_json_is_bad_gateway (lib := Ref.lib)).
  - vm_compute. apply list_elem_of_here.
  - reflexivity.
  - vm_compute. reflexivity.
Defined.


(** The target sends eleven bytes with Content-Length: 11; the client is
    told eleven and is sent seven. *)
Lemma C10_content_length_relayed_unchanged_witness :
  exists header body,
    client_view
      (serve (lib := Ref.lib) (proxy [rule "r" "" ""] (stack refused spaced))
         (request (Ref.js "{'m':1}")) 0%nat)
    = Reply 200 header body
    /\ header !! "Content-Length" = Some ["11"]
    /\ body = Ref.js "{'x':1}"
    /\ String.length body <> 11%nat.
Proof.
  eapply (C10_content_length_relayed_unchanged (lib := Ref.lib)
            _ _ _ (rule "r" "" "") _ 200 {["Content-Length" := ["11"]]}
            (Ref.js "{ 'x' : 1 }") (Ref.js "{'x':1}")).
  - reflexivity.
  - reflexivity.
  - vm_compute. apply list_elem_of_here.
  - reflexivity.
  - intros k vs Hk. apply lookup_singleton_Some in Hk as [<- <-].
    split; [reflexivity | discriminate].
  - vm_compute. reflexivity.
  - vm_compute. reflexivity.
  - vm_compute. reflexivity.
  - vm_compute. lia.
Defined.

End Runs_of_the_examples.

(** * More of the code *)

(** ** [callRPC] *)

Section CallRPC.
Context {lib : GoLib} {S : Type}.

(** [callRPC] unfolded once: nothing is sent when the envelope cannot be
    encoded; otherwise one POST is made and recorded. *)
Lemma callRPC_spec (l : LLMSed S) (e : string) (v : value) (wd : S)
    (tr : list Event) (w : ResponseWriter) :
  callRPC l e v (State.mk wd tr w)
  = match json_MarshalRequest (envelope v) with
    | Err err => (Next (Err err), State.mk wd tr w)
    | Ok body =>
        let out := Client.Post (LLMSed.httpClient l) e "application/json" body wd in
        (Next (answer_of (fst out)),
         State.mk (snd out) (tr ++ [EvPost e "application/json" body (fst out)]) w)
    end.
Proof.
  unfold callRPC, envelope, answer_of.
  destruct (json_MarshalRequest _) as [body|err]; [|reflexivity].
  unfold bind, client_Post. cbn.
  destruct (Client.Post _ _ _ _ _) as [res wd']. cbn.
  destruct res as [resp|err]; [|reflexivity].
  destruct (json_Decode _) as [rpcResp|err]; [|reflexivity].
  destruct (negb _); reflexivity.
Qed.


(** A response envelope with an error indicator is a failure whatever
    else it holds: the result beside it is dropped and the error comes
    back as "rpc error: " followed by the indicator. *)
Theorem callRPC_error_indicator_wins (l : LLMSed S) (e : string) (v : value)
    (st : State S) (body : bytes) (resp : Response) (wd' : S)
    (env : JSONRPCResponse) :
  json_MarshalRequest (envelope v) = Ok body ->
  Client.Post (LLMSed.httpClient l) e "application/json" body (State.world st)
  = (Ok resp, wd') ->
  json_Decode (Response.Body resp) = Ok env ->
  is_nil (JSONRPCResponse.Error env) = false ->
  fst (callRPC l e v st)
  = Next (Err ("rpc error: " +:+ fmt_v (JSONRPCResponse.Error env))).
Proof.
  intros Hreq Hpost Hdec Herr. destruct st as [wd tr w]. cbn in Hpost.
  rewrite callRPC_spec, Hreq. cbn. rewrite Hpost. cbn.
  unfold answer_of. rewrite Hdec, Herr. reflexivity.
Qed.

(** The HTTP status and the headers of a transform service's response do
    not count: two services that answer the same call with the same body
    get the same outcome from [callRPC], whatever status each one sends. *)
Theorem callRPC_ignores_status_and_headers (l l' : LLMSed S) (e : string)
    (v : value) (st : State S) (body : bytes) (resp resp' : Response)
    (wd1 wd2 : S) :
  json_MarshalRequest (envelope v) = Ok body ->
  Client.Post (LLMSed.httpClient l) e "application/json" body (State.world st)
  = (Ok resp, wd1) ->
  Client.Post (LLMSed.httpClient l') e "application/json" body (State.world st)
  = (Ok resp', wd2) ->
  Response.Body resp = Response.Body resp' ->
  fst (callRPC l e v st) = fst (callRPC l' e v st).
Proof.
  intros Hreq Hpost Hpost' Hbody. destruct st as [wd tr w]. cbn in Hpost, Hpost'.
  rewrite !callRPC_spec, Hreq. cbn. rewrite Hpost, Hpost'. cbn.
  unfold answer_of. rewrite Hbody. reflexivity.
Qed.

End CallRPC.

(** ** [handleProxy], stage by stage *)

Ltac run_step :=
  match goal with
  | |- context [http_Error ?m ?c (State.mk ?wd ?tr _)] =>
      rewrite (http_Error_fresh m c wd tr) by reflexivity
  | |- context [callRPC ?l ?e ?v (State.mk ?wd ?tr ?w)] =>
      rewrite (callRPC_spec l e v wd tr w)
  | |- context [Client.Post ?c ?e ?ct ?b ?wd] =>
      let H := fresh "Hpost" in destruct (Client.Post c e ct b wd) as [? ?] eqn:H
  | |- context [http_NewRequest _ _ _] => unfold http_NewRequest
  | |- context [Client.Do ?c ?req ?wd] =>
      let H := fresh "Hdo" in destruct (Client.Do c req wd) as [? ?] eqn:H
  | |- context [match ?x with _ => _ end] =>
      lazymatch x with
      | context [match _ with _ => _ end] => fail
      | _ => destruct x eqn:?
      end
  end.

Ltac run :=
  unfold serve, handleProxy, client_view, trace_of;
  repeat (exec_simpl; run_step); exec_simpl.

Section Stages.
Context {lib : GoLib} {S : Type}.

(** A request whose body cannot be read, or does not decode, is answered
    with 400 ("failed to read request" or "invalid json") whatever the
    ruleset, and no outbound call is made for it. *)
Theorem undecodable_body_is_bad_request (l : LLMSed S) (r : Request) (s : S) :
  (forall body payload,
      io_ReadAll (Request.Body r) = Ok body -> json_Unmarshal body <> Ok payload) ->
  trace_of (serve l r s) = []
  /\ State.world (snd (serve l r s)) = s
  /\ exists msg,
       client_view (serve l r s) = errorReply StatusBadRequest msg
       /\ (msg = "failed to read request" \/ msg = "invalid json").
Proof.
  intros Hbad. unfold serve, handleProxy, client_view, trace_of.
  destruct (io_ReadAll (Request.Body r)) as [body|err].
  - destruct (json_Unmarshal body) as [payload|err] eqn:Hun.
    + exfalso. exact (Hbad body payload eq_refl Hun).
    + run. repeat split. eexists. split; [reflexivity|]. right. reflexivity.
  - run. repeat split. eexists. split; [reflexivity|]. left. reflexivity.
Qed.

(** When the forward call fails, the reply is 502 with
    "failed to forward request: " and the error, and that call is the
    last one: no post-transform, no second attempt. *)
Theorem forward_failure_is_bad_gateway (l : LLMSed S) (r : Request) (s : S)
    (req : ClientRequest) (err : error) :
  EvDo req (Err err) ∈ trace_of (serve l r s) ->
  client_view (serve l r s)
  = errorReply StatusBadGateway ("failed to forward request: " +:+ err)
  /\ exists before, trace_of (serve l r s) = before ++ [EvDo req (Err err)].
Proof.
  run; intros Hin; in_trace.
  all: split; [reflexivity|].
  all: first [ exists []; reflexivity | eexists [_]; reflexivity ].
Qed.

(** The index into the rules is guarded by the length test before it:
    the handler never panics with an index out of range. *)
Theorem rule_index_never_out_of_range (l : LLMSed S) (r : Request) (s : S) :
  fst (serve l r s) <> Panic "runtime error: index out of range".
Proof.
  destruct (Config.Rules (LLMSed.config l)) as [|rule rules] eqn:Hrules.
  - unfold serve, handleProxy. rewrite Hrules. cbn [length Nat.eqb].
    run; discriminate.
  - unfold serve, handleProxy. rewrite Hrules.
    cbn [length Nat.eqb lookup list_lookup].
    run; try discriminate.
    all: match goal with |- context [typeName ?v] => destruct v; discriminate end.
Qed.
End Stages.

Section Stages2.
Context {lib : GoLib} {S : Type}.

(** The calls of one request, in their order: at most the pre-transform
    call, then at most one forward call, then at most the post-transform
    call, which is made only after a forward call. Nothing is called
    twice. *)
Theorem calls_are_pre_forward_post (l : LLMSed S) (r : Request) (s : S)
    (rule : TransformRule) :
  Config.Rules (LLMSed.config l) !! 0%nat = Some rule ->
  exists pre fwd post,
    trace_of (serve l r s) = pre ++ fwd ++ post
    /\ (pre = []
        \/ exists b a, pre = [EvPost (TransformRule.Pre rule) "application/json" b a])
    /\ (fwd = [] \/ exists req a, fwd = [EvDo req a])
    /\ (post = []
        \/ exists b a,
             post = [EvPost (TransformRule.Post rule) "application/json" b a]
             /\ fwd <> []).
Proof.
  intros Hrule. unfold serve, handleProxy, trace_of. rewrite Hrule.
  run.
  all: match goal with
       | |- exists _ _ _, [] = _ /\ _ => exists [], [], []
       | |- exists _ _ _, [EvPost ?u ?c ?b ?a] = _ /\ _ => exists [EvPost u c b a], [], []
       | |- exists _ _ _, [EvDo ?q ?a] = _ /\ _ => exists [], [EvDo q a], []
       | |- exists _ _ _, [EvPost ?u ?c ?b ?a; EvDo ?q ?a'] = _ /\ _ =>
           exists [EvPost u c b a], [EvDo q a'], []
       | |- exists _ _ _, [EvDo ?q ?a'; EvPost ?u ?c ?b ?a] = _ /\ _ =>
           exists [], [EvDo q a'], [EvPost u c b a]
       | |- exists _ _ _, [EvPost ?u0 ?c0 ?b0 ?a0; EvDo ?q ?a'; EvPost ?u ?c ?b ?a] = _ /\ _ =>
           exists [EvPost u0 c0 b0 a0], [EvDo q a'], [EvPost u c b a]
       end.
  all: split; [reflexivity|].
  all: repeat split; first [left; reflexivity | right; eauto].
  all: right; eexists _, _; split; [reflexivity | discriminate].
Qed.

(** What the client can get: no reply at all (the handler panicked), or
    one of the handler's own failures, with status 400, 500 or 502 and
    the headers of [http.Error] alone, or the status and the headers of
    an answer the target gave to the forward call. *)
Theorem reply_is_failure_or_upstream (l : LLMSed S) (r : Request) (s : S) :
  client_view (serve l r s) = Aborted
  \/ (exists code msg,
        client_view (serve l r s) = errorReply code msg
        /\ (code = StatusBadRequest \/ code = StatusInternalServerError
            \/ code = StatusBadGateway))
  \/ exists req resp body,
       EvDo req (Ok resp) ∈ trace_of (serve l r s)
       /\ client_view (serve l r s)
          = Reply (Response.StatusCode resp)
              (copyHeaders (Response.Header resp) ∅) body.
Proof.
  run.
  all: try (left; reflexivity).
  all: try (right; left; eexists _, _; split; [reflexivity|]; auto; fail).
  all: right; right; eexists _, _, _; split; [|reflexivity].
  all: repeat first [apply list_elem_of_here | apply list_elem_of_further].
Qed.

(** The forward call takes the method of the inbound request ("GET" for
    an empty one) and the inbound headers copied onto an empty map: for a
    header map as the server parses it, the very same map. *)
Theorem forward_keeps_method_and_headers (l : LLMSed S) (r : Request) (s : S)
    (req : ClientRequest) (res : result Response) :
  EvDo req res ∈ trace_of (serve l r s) ->
  ClientRequest.Method req
  = (if String.eqb (Request.Method r) "" then "GET" else Request.Method r)
  /\ ClientRequest.Header req = copyHeaders (Request.Header r) ∅
  /\ (wire_header (Request.Header r) ->
      ClientRequest.Header req = Request.Header r).
Proof.
  run; intros Hin; in_trace.
  all: repeat split; try reflexivity; try (apply copyHeaders_wire).
  all: match goal with H : (_ =? _)%string = _ |- _ => rewrite H; reflexivity end.
Qed.
End Stages2.

Section Stages3.
Context {lib : GoLib} {S : Type}.


(** When the client is told "post-transform failed", the target has
    been called and has answered: the failure comes after the upstream
    call, which is not undone. *)
Theorem post_failure_comes_after_upstream (l : LLMSed S) (r : Request) (s : S)
    (err : error) :
  client_view (serve l r s)
  = errorReply StatusInternalServerError ("post-transform failed: " +:+ err) ->
  exists req resp, EvDo req (Ok resp) ∈ trace_of (serve l r s).
Proof.
  unfold errorReply. run; intros Hview; try discriminate Hview.
  all: try (eexists _, _;
            repeat first [apply list_elem_of_here | apply list_elem_of_further]; fail).
Qed.


(** The same, when the object is missing: a post-transform call that
    succeeds with a result that is not an object makes the handler panic
    after the target was called, and the client gets no reply. *)
Theorem post_result_not_object_panics (l : LLMSed S) (r : Request) (s : S)
    (before : list Event) (req : ClientRequest) (resp : Response)
    (url ct : string) (b : bytes) (answer : result Response) (v : value) :
  trace_of (serve l r s)
  = before ++ [EvDo req (Ok resp); EvPost url ct b answer] ->
  answer_of answer = Ok v ->
  (forall m, v <> VMap m) ->
  fst (serve l r s)
  = Panic ("interface conversion: interface {} is " +:+ typeName v
           +:+ ", not map[string]interface {}")
  /\ client_view (serve l r s) = Aborted.
Proof.
  intros Htr Hans Hv. revert Htr.
  run; intros Htr.
  all: apply (f_equal (@rev Event)) in Htr.
  all: rewrite rev_app_distr in Htr; cbn [rev app] in Htr.
  all: simplify_eq.
  all: try congruence.
  all: repeat match goal with
       | H1 : answer_of ?a = Ok _, H2 : answer_of ?a = Ok _ |- _ =>
           rewrite H1 in H2; simplify_eq
       end.
  all: try (exfalso; eapply Hv; reflexivity).
  all: split; reflexivity.
Qed.
End Stages3.

(** ** Start-up *)

Lemma length_append (s t : string) :
  String.length (s +:+ t) = (String.length s + String.length t)%nat.
Proof.
  induction s as [|c s IH]; [reflexivity|].
  change (Datatypes.S (String.length (s +:+ t))
          = Datatypes.S (String.length s + String.length t)).
  f_equal. exact IH.
Qed.

Lemma substring_prefix (s t : string) :
  substring 0 (String.length s) (s +:+ t) = s.
Proof.
  induction s as [|c s IH].
  - destruct t; reflexivity.
  - change (String c (substring 0 (String.length s) (s +:+ t)) = String c s).
    f_equal. exact IH.
Qed.

Lemma substring_suffix (s t : string) :
  substring (String.length s) (String.length t) (s +:+ t) = t.
Proof.
  induction s as [|c s IH]; [|exact IH].
  change (substring 0 (String.length t) t = t).
  induction t as [|c t IHt]; [reflexivity|].
  change (String c (substring 0 (String.length t) t) = String c t).
  f_equal. exact IHt.
Qed.

(** [strings.TrimSuffix] takes a suffix away once. *)
Lemma TrimSuffix_app (s suffix : string) : TrimSuffix (s +:+ suffix) suffix = s.
Proof.
  unfold TrimSuffix, HasSuffix. rewrite length_append.
  replace (String.length s + String.length suffix - String.length suffix)%nat
    with (String.length s) by lia.
  rewrite substring_suffix, String.eqb_refl, substring_prefix.
  destruct (String.length suffix <=? String.length s + String.length suffix)%nat eqn:Hle;
    [reflexivity|].
  apply Nat.leb_gt in Hle. lia.
Qed.

Section StartupFacts.
Context {host : Host} {lib : GoLib} {S : Type}.

(** Start-up succeeds exactly when the map file is read and decodes; the
    handler then has the decoded rules, the server URL without its
    trailing slash, and the address host:port is the one to bind. *)
Theorem main_init_succeeds_iff (flags : Flags) (c : Client S)
    (addr : string) (l : LLMSed S) :
  main_init flags c = Ok (addr, l)
  <-> exists data config,
        os_ReadFile (Flags.map_file flags) = Ok data
        /\ json_UnmarshalConfig data = Ok config
        /\ l = LLMSed.mk config (TrimSuffix (Flags.server flags) "/") c
        /\ addr = Flags.host flags +:+ ":" +:+ Ref.decimal (Flags.port flags).
Proof.
  unfold main_init, NewLLMSed. split.
  - destruct (os_ReadFile _) as [data|err] eqn:Hread; [|discriminate].
    destruct (json_UnmarshalConfig data) as [config|err] eqn:Hdec; [|discriminate].
    intros Heq. injection Heq as <- <-. exists data, config. repeat split. exact Hdec.
  - intros (data & config & -> & -> & -> & ->). reflexivity.
Qed.

(** A start-up that fails says why: the map file could not be read, and
    then nothing is decoded, or it could not be decoded; the message
    carries the cause after the prefixes of [main] and [NewLLMSed]. *)
Theorem main_init_failure_names_cause (flags : Flags) (c : Client S) (msg : string) :
  main_init flags c = Err msg ->
  (exists err,
      os_ReadFile (Flags.map_file flags) = Err err
      /\ msg = "Failed to initialize llmsed: failed to read config: " +:+ err)
  \/ exists data err,
       os_ReadFile (Flags.map_file flags) = Ok data
       /\ json_UnmarshalConfig data = Err err
       /\ msg = "Failed to initialize llmsed: failed to parse config: " +:+ err.
Proof.
  unfold main_init, NewLLMSed.
  destruct (os_ReadFile _) as [data|err] eqn:Hread.
  - destruct (json_UnmarshalConfig data) as [config|err] eqn:Hdec; [discriminate|].
    intros Heq. injection Heq as <-. right. exists data, err. repeat split. exact Hdec.
  - intros Heq. injection Heq as <-. left. exists err. repeat split.
Qed.

(** One trailing slash of the server flag is taken away, and one only: a
    flag base/ gives the server URL base, also when base itself ends
    with a slash; a flag without a trailing slash is kept as it is. *)
Theorem main_init_trims_one_slash (flags : Flags) (c : Client S)
    (addr : string) (l : LLMSed S) :
  main_init flags c = Ok (addr, l) ->
  (forall base, Flags.server flags = base +:+ "/" -> LLMSed.serverURL l = base)
  /\ (HasSuffix (Flags.server flags) "/" = false ->
      LLMSed.serverURL l = Flags.server flags).
Proof.
  unfold main_init, NewLLMSed.
  destruct (os_ReadFile _) as [data|err]; [|discriminate].
  destruct (json_UnmarshalConfig data) as [config|err]; [|discriminate].
  intros Heq. injection Heq as <- <-. cbn [LLMSed.serverURL]. split.
  - intros base ->. apply TrimSuffix_app.
  - intros Hno. unfold TrimSuffix. rewrite Hno. reflexivity.
Qed.

(** Start-up and handler together: started with the server flag base/,
    the proxy forwards a request for a path to base followed by the path,
    with no doubled slash between them. *)
Theorem started_proxy_forwards_to_trimmed_base (flags : Flags) (c : Client S)
    (addr : string) (l : LLMSed S) (base : string) (r : Request) (s : S)
    (req : ClientRequest) (res : result Response) :
  main_init flags c = Ok (addr, l) ->
  Flags.server flags = base +:+ "/" ->
  EvDo req res ∈ trace_of (serve l r s) ->
  ClientRequest.URL req = base +:+ URL.Path (Request.URL r).
Proof.
  unfold main_init, NewLLMSed.
  destruct (os_ReadFile _) as [data|err]; [|discriminate].
  destruct (json_UnmarshalConfig data) as [config|err]; [|discriminate].
  intros Heq Hflag. injection Heq as <- <-. rewrite Hflag, TrimSuffix_app.
  run; intros Hin; in_trace; reflexivity.
Qed.

End StartupFacts.

(** ** The copy loop *)

(** The values of a canonical key added one by one: they go after those
    the map has for the key, in their order, and no other key changes. *)
Lemma add_values_lookup (k k' : string) (vs : list string) (h : Header) :
  CanonicalMIMEHeaderKey k = k ->
  vs <> [] ->
  foldl (fun dst value => Header.Add k value dst) h vs !! k'
  = if decide (k = k') then Some (default [] (h !! k) ++ vs) else h !! k'.
Proof.
  intros Hk Hvs.
  assert (Hfold : foldl (fun dst value => Header.Add k value dst) h vs
                  = <[k := default [] (h !! k) ++ vs]> h).
  { destruct (h !! k) as [pre|] eqn:Hpre.
    - apply add_values; assumption.
    - destruct vs as [|v vs]; [congruence|]. apply add_values_fresh; assumption. }
  rewrite Hfold. apply lookup_insert.
Qed.

(** The loop of lines 147-151 and 191-195 adds and never overwrites:
    copying a header map as it comes from the wire onto any map leaves,
    under each of its keys, the values the destination had followed by
    the copied ones in their order, and leaves the other keys alone. *)
Theorem copy_loop_appends (src dst : Header) (k : string) :
  wire_header src ->
  copyHeaders src dst !! k
  = match src !! k with
    | Some vs => Some (default [] (dst !! k) ++ vs)
    | None => dst !! k
    end.
Proof.
  unfold copyHeaders. revert k.
  apply (map_fold_weak_ind
           (fun r (m : Header) =>
              forall k, wire_header m ->
                r !! k = match m !! k with
                         | Some vs => Some (default [] (dst !! k) ++ vs)
                         | None => dst !! k
                         end)).
  - intros k _. rewrite lookup_empty. reflexivity.
  - intros i vs m r Hfresh IH k Hwire.
    assert (Hm : wire_header m).
    { intros k' vs' Hk'. apply (Hwire k' vs').
      rewrite lookup_insert_ne; [exact Hk'|]. intros ->. congruence. }
    destruct (Hwire i vs (lookup_insert_eq _ _ _)) as [Hi Hvs].
    rewrite add_values_lookup by assumption.
    rewrite lookup_insert.
    destruct (decide (i = k)) as [->|Hne].
    + rewrite (IH k Hm), Hfresh. reflexivity.
    + apply IH. exact Hm.
Qed.

(** * Runs of the added properties *)
Section More_runs.
Import Example Services.

Lemma callRPC_error_indicator_wins_witness :
  fst (callRPC (lib := Ref.lib)
         (proxy [] (stack (replying 200 ∅ both) echo)) "http://pre"
         (VMap (Some ∅)) (State.mk 0%nat [] newResponseWriter))
  = Next (Err ("rpc error: " +:+ "boom")).
Proof.
  eapply (callRPC_error_indicator_wins (lib := Ref.lib) _ _ _ _ _ _ _
            {| JSONRPCResponse.JSONRPC := "2.0";
               JSONRPCResponse.Result := _;
               JSONRPCResponse.Error := VString "boom";
               JSONRPCResponse.ID := 1 |}).
  - vm_compute. reflexivity.
  - reflexivity.
  - vm_compute. reflexivity.
  - reflexivity.
Defined.

Lemma callRPC_ignores_status_and_headers_witness :
  fst (callRPC (lib := Ref.lib)
         (proxy [] (stack (replying 200 ∅ fine) echo)) "http://pre"
         (VMap (Some ∅)) (State.mk 0%nat [] newResponseWriter))
  = fst (callRPC (lib := Ref.lib)
           (proxy [] (stack (replying 500 {["X-Failed" := ["yes"]]} fine) echo))
           "http://pre" (VMap (Some ∅)) (State.mk 0%nat [] newResponseWriter)).
Proof.
  eapply (callRPC_ignores_status_and_headers (lib := Ref.lib)).
  - vm_compute. reflexivity.
  - reflexivity.
  - reflexivity.
  - reflexivity.
Defined.

Lemma undecodable_body_is_bad_request_witness :
  trace_of
    (serve (lib := Ref.lib)
       (proxy [rule "r" "http://pre" "http://post"] (stack refused echo))
       (request "oops") 0%nat) = []
  /\ State.world
       (snd (serve (lib := Ref.lib)
               (proxy [rule "r" "http://pre" "http://post"] (stack refused echo))
               (request "oops") 0%nat)) = 0%nat
  /\ exists msg,
       client_view
         (serve (lib := Ref.lib)
            (proxy [rule "r" "http://pre" "http://post"] (stack refused echo))
            (request "oops") 0%nat)
       = errorReply StatusBadRequest msg
       /\ (msg = "failed to read request" \/ msg = "invalid json").
Proof.
  apply (undecodable_body_is_bad_request (lib := Ref.lib)).
  intros body payload Hread. cbn in Hread. injection Hread as <-.
  vm_compute. discriminate.
Defined.

Lemma forward_failure_is_bad_gateway_witness :
  client_view
    (serve (lib := Ref.lib) (proxy [rule "r" "" "http://post"] (stack refused down))
       (request (Ref.js "{'m':1}")) 0%nat)
  = errorReply StatusBadGateway
      ("failed to forward request: "
       +:+ "dial tcp 127.0.0.1:443: connect: connection refused").
Proof.
  eapply proj1.
  eapply (forward_failure_is_bad_gateway (lib := Ref.lib)).
  vm_compute. apply list_elem_of_here.
Defined.

Lemma calls_are_pre_forward_post_witness :
  exists pre fwd post,
    trace_of
      (serve (lib := Ref.lib)
         (proxy [rule "r" "http://pre" "http://post"]
            (stack (replying 200 ∅ fine) echo))
         (request (Ref.js "{'m':1}")) 0%nat)
    = pre ++ fwd ++ post
    /\ (pre = [] \/ exists b a, pre = [EvPost "http://pre" "application/json" b a])
    /\ (fwd = [] \/ exists req a, fwd = [EvDo req a])
    /\ (post = []
        \/ exists b a,
             post = [EvPost "http://post" "application/json" b a] /\ fwd <> []).
Proof.
  apply (calls_are_pre_forward_post (lib := Ref.lib) _ _ _
           (rule "r" "http://pre" "http://post")).
  reflexivity.
Defined.

Lemma forward_keeps_method_and_headers_witness :
  exists req res,
    EvDo req res
    ∈ trace_of
        (serve (lib := Ref.lib) (proxy [rule "r" "" ""] (stack refused echo))
           (request (Ref.js "{'m':1}")) 0%nat)
    /\ ClientRequest.Method req = "POST"
    /\ ClientRequest.Header req
       = copyHeaders {["Content-Type" := ["application/json"]]} ∅.
Proof.
  eexists _, _. split; [vm_compute; apply list_elem_of_here|].
  refine (let H := forward_keeps_method_and_headers (lib := Ref.lib)
                      (proxy [rule "r" "" ""] (stack refused echo))
                      (request (Ref.js "{'m':1}")) 0%nat _ _ _ in
          conj (proj1 H) (proj1 (proj2 H))).
  vm_compute. apply list_elem_of_here.
Defined.


Lemma post_failure_comes_after_upstream_witness :
  exists req resp,
    EvDo req (Ok resp)
    ∈ trace_of
        (serve (lib := Ref.lib)
           (proxy [rule "r" "" "http://post"] (stack refused echo))
           (request (Ref.js "{'m':1}")) 0%nat).
Proof.
  eapply (post_failure_comes_after_upstream (lib := Ref.lib) _ _ _
            "dial tcp 127.0.0.1:9001: connect: connection refused").
  vm_compute. reflexivity.
Defined.


Lemma post_result_not_object_panics_witness :
  fst (serve (lib := Ref.lib)
         (proxy [rule "r" "" "http://post"]
            (stack (transform_to (Ref.js "'text'")) echo))
         (request (Ref.js "{'m':1}")) 0%nat)
  = Panic ("interface conversion: interface {} is " +:+ "string"
           +:+ ", not map[string]interface {}")
  /\ client_view
       (serve (lib := Ref.lib)
          (proxy [rule "r" "" "http://post"]
             (stack (transform_to (Ref.js "'text'")) echo))
          (request (Ref.js "{'m':1}")) 0%nat)
     = Aborted.
Proof.
  eapply (post_result_not_object_panics (lib := Ref.lib) _ _ _ [] _ _ _ _ _ _
            (VString "text")).
  - vm_compute. reflexivity.
  - vm_compute. reflexivity.
  - intros m. discriminate.
Defined.

Lemma main_init_failure_names_cause_witness :
  (exists err,
      os_ReadFile (Host := Fixture.host) "missing.json" = Err err
      /\ "Failed to initialize llmsed: failed to read config: open missing.json: no such file or directory"
         = "Failed to initialize llmsed: failed to read config: " +:+ err)
  \/ exists data err,
       os_ReadFile (Host := Fixture.host) "missing.json" = Ok data
       /\ json_UnmarshalConfig (Host := Fixture.host) data = Err err
       /\ "Failed to initialize llmsed: failed to read config: open missing.json: no such file or directory"
          = "Failed to initialize llmsed: failed to parse config: " +:+ err.
Proof.
  apply (main_init_failure_names_cause (host := Fixture.host)
           {| Flags.host := "0.0.0.0"; Flags.port := 8080;
              Flags.map_file := "missing.json";
              Flags.server := "https://api.openai.com" |}
           (stack refused echo)).
  vm_compute. reflexivity.
Defined.

Lemma main_init_trims_one_slash_witness :
  (forall base,
      "https://api.anthropic.com/" = base +:+ "/" ->
      "https://api.anthropic.com" = base)
  /\ (HasSuffix "https://api.anthropic.com/" "/" = false ->
      "https://api.anthropic.com" = "https://api.anthropic.com/").
Proof.
  apply (main_init_trims_one_slash (host := Fixture.host)
           {| Flags.host := "0.0.0.0"; Flags.port := 8080;
              Flags.map_file := "config.json";
              Flags.server := "https://api.anthropic.com/" |}
           (stack refused echo) "0.0.0.0:8080"
           (LLMSed.mk Fixture.readme_config "https://api.anthropic.com"
              (stack refused echo))).
  vm_compute. reflexivity.
Defined.

Lemma started_proxy_forwards_to_trimmed_base_witness :
  exists req res,
    EvDo req res
    ∈ trace_of
        (serve (lib := Ref.lib)
           (LLMSed.mk Fixture.readme_config "https://api.anthropic.com"
              (stack (replying 200 ∅ fine) echo))
           (request (Ref.js "{'m':1}")) 0%nat)
    /\ ClientRequest.URL req = "https://api.anthropic.com" +:+ "/v1/chat".
Proof.
  eexists _, _.
  split; [vm_compute; apply list_elem_of_further, list_elem_of_here|].
  eapply (started_proxy_forwards_to_trimmed_base (host := Fixture.host)
            (lib := Ref.lib)
            {| Flags.host := "0.0.0.0"; Flags.port := 8080;
               Flags.map_file := "config.json";
               Flags.server := "https://api.anthropic.com/" |}
            (stack (replying 200 ∅ fine) echo) "0.0.0.0:8080" _
            "https://api.anthropic.com" (request (Ref.js "{'m':1}")) 0%nat).
  - vm_compute. reflexivity.
  - reflexivity.
  - vm_compute. apply list_elem_of_further, list_elem_of_here.
Defined.

Lemma copy_loop_appends_witness :
  copyHeaders {["X-Test" := ["a"; "b"]]} {["X-Test" := ["z"]]} !! "X-Test"
  = Some (["z"] ++ ["a"; "b"]).
Proof.
  etransitivity.
  - apply copy_loop_appends.
    intros k vs Hk. apply lookup_singleton_Some in Hk as [<- <-].
    split; [reflexivity | discriminate].
  - vm_compute. reflexivity.
Defined.

End More_runs.
